(** * Asset recommender: the quantitative analysis engine

    A shallow embedding of the analysis code of the asset recommender
    (technical indicators, trend analysis, momentum scoring, volume
    fundamentals and the batch loops of the API routes), together with the
    properties its specification states about it.

    JavaScript numbers are IEEE 754 binary64 values; they are modelled by
    Rocq's primitive floats, which are the same format with the same
    rounding, so [NaN], the infinities and the signed zeros behave as they do
    in the running program. *)

From Stdlib Require Import String DecimalString.
From Stdlib Require Import List ZArith Bool Lia Floats Permutation PeanoNat.
Import ListNotations.

Set Warnings "-inexact-float".

(** ** The JavaScript fragment the sources use *)

Module JS.

Definition number := float.

(** Reading past the end of an array yields [undefined]; every place where
    the sources do so feeds the value to an arithmetic operator or a
    comparison, and [ToNumber(undefined)] is [NaN]. *)
Definition undefined : number := nan.

(** [a > b] and [a >= b]. *)
Definition gtb (a b : number) : bool := (b <? a)%float.
Definition geb (a b : number) : bool := (b <=? a)%float.

(** Truthiness of a number: [0], [-0] and [NaN] are falsy. *)
Definition truthy (x : number) : bool := negb (is_nan x || is_zero x).

(** [x || d] on numbers. *)
Definition or_else (x d : number) : number := if truthy x then x else d.

(** [Math.max] and [Math.min] on two arguments: [NaN] is contagious and
    [+0] is larger than [-0]. *)
Definition Math_max (a b : number) : number :=
  if is_nan a || is_nan b then nan
  else if (a <? b)%float then b
  else if (b <? a)%float then a
  else if get_sign a then b else a.

Definition Math_min (a b : number) : number :=
  if is_nan a || is_nan b then nan
  else if (a <? b)%float then a
  else if (b <? a)%float then b
  else if get_sign a then a else b.

Definition Math_abs (a : number) : number := abs a.

(** A non-negative integer (an array length, a counter) as a number. *)
Definition of_nat (n : nat) : number := of_uint63 (Uint63.of_Z (Z.of_nat n)).

Section Arrays.
Context {A : Type}.

(** Relative index resolution of [Array.prototype.slice]. *)
Definition rel_index (len : nat) (i : Z) : nat :=
  if (i <? 0)%Z then Z.to_nat (Z.max (Z.of_nat len + i) 0)
  else Nat.min (Z.to_nat i) len.

(** [arr.slice(start, end)]. *)
Definition slice (start stop : Z) (arr : list A) : list A :=
  let k := rel_index (length arr) start in
  let final := rel_index (length arr) stop in
  firstn (final - k) (skipn k arr).

(** [arr.slice(start)]. *)
Definition slice_from (start : Z) (arr : list A) : list A :=
  skipn (rel_index (length arr) start) arr.

(** [arr.push(x)]. *)
Definition push (arr : list A) (x : A) : list A := arr ++ [x].

(** [arr.sort(compareFn)].  The language requires the sort to be stable;
    it is modelled by stable insertion: an element moves behind a later
    one only when [compareFn] puts it strictly after. *)
Fixpoint sort_insert (compareFn : A -> A -> float) (x : A) (sorted : list A) : list A :=
  match sorted with
  | [] => [x]
  | y :: rest =>
      if (0 <? compareFn x y)%float then y :: sort_insert compareFn x rest
      else x :: sorted
  end.

Definition sort (compareFn : A -> A -> float) (arr : list A) : list A :=
  fold_right (sort_insert compareFn) [] arr.
End Arrays.

(** [arr[i]] on an array of numbers. *)
Definition get (arr : list number) (i : nat) : number := nth i arr undefined.

(** [arr.reduce((sum, v) => sum + v, 0)]. *)
Definition sum (arr : list number) : number :=
  fold_left (fun acc v => (acc + v)%float) arr 0%float.

(** A thrown [Error] with its message. *)
Inductive exn : Type :=
| Error (message : string)
| TypeError (message : string).

(** The outcome of a call that may throw. *)
Definition result (A : Type) : Type := (exn + A)%type.
Definition ok {A} (a : A) : result A := inr a.
Definition throw {A} (e : exn) : result A := inl e.

(** Template-literal rendering of a non-negative integer. *)
Definition show_nat (n : nat) : string := NilEmpty.string_of_uint (Nat.to_uint n).

(** [Math.min(...arr)] and [Math.max(...arr)]: with no argument they are
    [Infinity] and [-Infinity]. *)
Definition Math_min_all (arr : list number) : number := fold_left Math_min arr infinity.
Definition Math_max_all (arr : list number) : number := fold_left Math_max arr neg_infinity.

(** [s || d] on strings: the empty string is falsy. *)
Definition nonempty_or (s d : string) : string :=
  match s with
  | EmptyString => d
  | _ => s
  end.

(** Sequencing of calls that may throw. *)
Definition bind {A B : Type} (call : result A) (rest : A -> result B) : result B :=
  match call with
  | inl error => inl error
  | inr value => rest value
  end.

End JS.

Notation "a >? b" := (JS.gtb a b) (at level 70, no associativity) : float_scope.
Notation "'try!' x <- call ; rest" := (JS.bind call (fun x => rest))
  (at level 10, x name, call at level 100, rest at level 200).
Notation "a >=? b" := (JS.geb a b) (at level 70, no associativity) : float_scope.

(** ** The order of binary64 numbers

    The comparison of two numbers, neither of them [NaN], is the
    lexicographic comparison of their keys: the class of the number
    (negative infinity, negative, zero, positive, positive infinity), then
    exponent and mantissa, both negated for negative numbers. *)

Module FloatOrder.

Definition key (x : spec_float) : Z * Z * Z :=
  match x with
  | S754_nan => (0, 0, 0)%Z
  | S754_infinity true => (-2, 0, 0)%Z
  | S754_infinity false => (2, 0, 0)%Z
  | S754_zero _ => (0, 0, 0)%Z
  | S754_finite true m e => (-1, - e, - Zpos m)%Z
  | S754_finite false m e => (1, e, Zpos m)%Z
  end.

Definition lex_le (k1 k2 : Z * Z * Z) : Prop :=
  let '(a1, b1, c1) := k1 in
  let '(a2, b2, c2) := k2 in
  (a1 < a2 \/ (a1 = a2 /\ (b1 < b2 \/ (b1 = b2 /\ c1 <= c2))))%Z.

End FloatOrder.

(** ** The data model ([types]) *)

Record PriceData : Type := mkPriceData {
  date : string;
  open : JS.number;
  high : JS.number;
  low : JS.number;
  close : JS.number;
  volume : JS.number
}.

(** [TechnicalIndicators]: the indicator bundle as of the last bar. *)
Record MACDValue : Type := mkMACD {
  MACD : JS.number;
  signal : JS.number;
  histogram : JS.number
}.

Record SMAValue : Type := mkSMA {
  sma20 : JS.number;
  sma50 : JS.number;
  sma200 : JS.number
}.

Record EMAValue : Type := mkEMA {
  ema12 : JS.number;
  ema26 : JS.number
}.

Record BollingerValue : Type := mkBollinger {
  upper : JS.number;
  middle : JS.number;
  lower : JS.number
}.

Record StochasticValue : Type := mkStochastic {
  k : JS.number;
  d : JS.number
}.

Record TechnicalIndicators : Type := mkTechnicalIndicators {
  rsi : JS.number;
  macd : MACDValue;
  sma : SMAValue;
  ema : EMAValue;
  bollingerBands : BollingerValue;
  stochastic : StochasticValue;
  adx : JS.number;
  obv : JS.number;
  volumeSMA : JS.number
}.

Inductive Direction : Type := uptrend | downtrend | sideways.
Inductive Crossover : Type := bullish | bearish | none.

Record TrendAnalysis : Type := mkTrendAnalysis {
  direction : Direction;
  strength : JS.number;
  reversalSignal : bool;
  movingAverageCrossover : Crossover
}.

Record Breakdown : Type := mkBreakdown {
  technical : JS.number;
  trend : JS.number;
  volume' : JS.number
}.

Record MomentumScore : Type := mkMomentumScore {
  score : JS.number;
  shortTerm : JS.number;
  longTerm : JS.number;
  breakdown : Breakdown
}.

Inductive VolumeTrend : Type := increasing | decreasing | stable.

Record FundamentalData : Type := mkFundamentalData {
  peRatio : option JS.number;
  marketCap : option JS.number;
  priceToBook : option JS.number;
  volumeTrend : VolumeTrend;
  averageVolume : JS.number
}.

Inductive AssetType : Type := us_stock | indian_stock | crypto.
Inductive RecommendationLabel : Type := strong_buy | buy | hold | sell | strong_sell.

Module Asset.
Record t : Type := mk {
  symbol : string;
  name : string;
  type : AssetType;
  currentPrice : JS.number;
  priceChange : JS.number;
  priceChangePercent : JS.number;
  priceData : list PriceData;
  technicalIndicators : TechnicalIndicators;
  fundamentals : FundamentalData;
  trend : TrendAnalysis;
  momentum : MomentumScore;
  overallScore : JS.number;
  recommendation : RecommendationLabel;
  confidence : JS.number
}.

(** [asset.overallScore = v], [asset.confidence = v] and
    [asset.recommendation = v]. *)
Definition set_overallScore (asset : t) (v : JS.number) : t :=
  mk (symbol asset) (name asset) (type asset) (currentPrice asset) (priceChange asset)
     (priceChangePercent asset) (priceData asset) (technicalIndicators asset)
     (fundamentals asset) (trend asset) (momentum asset)
     v (recommendation asset) (confidence asset).

Definition set_confidence (asset : t) (v : JS.number) : t :=
  mk (symbol asset) (name asset) (type asset) (currentPrice asset) (priceChange asset)
     (priceChangePercent asset) (priceData asset) (technicalIndicators asset)
     (fundamentals asset) (trend asset) (momentum asset)
     (overallScore asset) (recommendation asset) v.

Definition set_recommendation (asset : t) (v : RecommendationLabel) : t :=
  mk (symbol asset) (name asset) (type asset) (currentPrice asset) (priceChange asset)
     (priceChangePercent asset) (priceData asset) (technicalIndicators asset)
     (fundamentals asset) (trend asset) (momentum asset)
     (overallScore asset) v (confidence asset).
End Asset.

(** ** The [technicalindicators] package

    The indicator engine calls an external package for the smoothing and
    oscillator formulas.  Its [calculate] functions are taken as an
    interface: each returns the array of values it could compute, possibly
    empty.  Output fields the package may leave undefined are optional. *)

Module Lib.

Record MACDOutput : Type := mkMACDOutput {
  MACD : option JS.number;
  signal : option JS.number;
  histogram : option JS.number
}.

Record BollingerBandsOutput : Type := mkBBOutput {
  upper : JS.number;
  middle : JS.number;
  lower : JS.number
}.

Record StochasticOutput : Type := mkStochasticOutput {
  k : JS.number;
  d : JS.number
}.

Record ADXOutput : Type := mkADXOutput {
  adx : option JS.number
}.

Class Package : Type := {
  (** [RSI.calculate({ values, period })] *)
  RSI_calculate : list JS.number -> nat -> list JS.number;
  (** [MACD.calculate({ values, fastPeriod, slowPeriod, signalPeriod,
      SimpleMAOscillator, SimpleMASignal })] *)
  MACD_calculate : list JS.number -> nat -> nat -> nat -> bool -> bool -> list MACDOutput;
  (** [SMA.calculate({ values, period })] *)
  SMA_calculate : list JS.number -> nat -> list JS.number;
  (** [EMA.calculate({ values, period })] *)
  EMA_calculate : list JS.number -> nat -> list JS.number;
  (** [BollingerBands.calculate({ values, period, stdDev })] *)
  BollingerBands_calculate : list JS.number -> nat -> JS.number -> list BollingerBandsOutput;
  (** [Stochastic.calculate({ high, low, close, period, signalPeriod })] *)
  Stochastic_calculate :
    list JS.number -> list JS.number -> list JS.number -> nat -> nat -> list StochasticOutput;
  (** [ADX.calculate({ high, low, close, period })] *)
  ADX_calculate : list JS.number -> list JS.number -> list JS.number -> nat -> list ADXOutput
}.

End Lib.

(** ** The indicator engine ([lib/analysis/technicalIndicators.ts]) *)

Module TechnicalIndicatorsEngine.
Local Open Scope float_scope.

Section WithPackage.
Context {pkg : Lib.Package}.

(** The text of the error thrown for a series that is too short. *)
Definition insufficientMessage (n : nat) : string :=
  ("Insufficient data points. Need at least 50 days of data, got "
     ++ JS.show_nat n ++ ".")%string.

(** [values && values.length > 0] for an array that may be [null]. *)
Definition present {A : Type} (values : option (list A)) : bool :=
  match values with
  | Some (_ :: _) => true
  | _ => false
  end.

(** [values[values.length - 1]], read only where [present values]. *)
Definition lastValue (values : option (list JS.number)) : JS.number :=
  match values with
  | Some vs => JS.get vs (length vs - 1)
  | None => JS.undefined
  end.

(** The moving-average block: SMA20, SMA50 and SMA200 with their
    fallbacks for short series. *)
Definition movingAverages (priceData : list PriceData) : SMAValue :=
  let closes := map close priceData in
  let sma20Values :=
    if (20 <=? length priceData)%nat then Some (Lib.SMA_calculate closes 20) else None in
  let sma50Values :=
    if (50 <=? length priceData)%nat then Some (Lib.SMA_calculate closes 50) else None in
  let sma200Values :=
    if (200 <=? length priceData)%nat then Some (Lib.SMA_calculate closes 200) else None in
  let lastClose := JS.get closes (length closes - 1) in
  let sma20 := if present sma20Values then lastValue sma20Values else lastClose in
  let sma50 := if present sma50Values then lastValue sma50Values else lastClose in
  let sma200 :=
    if present sma200Values then lastValue sma200Values
    else if present sma50Values then lastValue sma50Values
    else lastClose in
  mkSMA sma20 sma50 sma200.

(** The record at index [i]; the loop below only reads inside the array. *)
Definition bar (priceData : list PriceData) (i : nat) : PriceData :=
  nth i priceData (mkPriceData EmptyString JS.undefined JS.undefined JS.undefined
                               JS.undefined JS.undefined).

(** One iteration of the [for] loop of [calculateOBV]. *)
Definition obvStep (priceData : list PriceData) (obv : JS.number) (i : nat) : JS.number :=
  let currentClose := close (bar priceData i) in
  let previousClose := close (bar priceData (i - 1)) in
  let volume := volume (bar priceData i) in
  if currentClose >? previousClose then obv + volume
  else if currentClose <? previousClose then obv - volume
  else obv.

(** [for (let i = 1; i < priceData.length; i++)], starting from [obv = 0]. *)
Definition calculateOBV (priceData : list PriceData) : JS.number :=
  fold_left (obvStep priceData) (seq 1 (length priceData - 1)) 0.

(** [o.field || 0] for a field the package may leave undefined. *)
Definition orZero (field : option JS.number) : JS.number :=
  match field with
  | Some x => JS.or_else x 0
  | None => 0
  end.

Definition calculateTechnicalIndicators (priceData : list PriceData)
  : JS.result TechnicalIndicators :=
  if (length priceData <? 50)%nat then
    JS.throw (JS.Error (insufficientMessage (length priceData)))
  else
    let closes := map close priceData in
    let highs := map high priceData in
    let lows := map low priceData in
    let volumes := map volume priceData in
    let lastClose := JS.get closes (length closes - 1) in
    let rsi := last (Lib.RSI_calculate closes 14) 50 in
    let latestMacd :=
      last (Lib.MACD_calculate closes 12 26 9 false false)
           (Lib.mkMACDOutput (Some 0) (Some 0) (Some 0)) in
    let sma := movingAverages priceData in
    let ema12 := last (Lib.EMA_calculate closes 12) lastClose in
    let ema26 := last (Lib.EMA_calculate closes 26) lastClose in
    let latestBB :=
      last (Lib.BollingerBands_calculate closes 20 2)
           (Lib.mkBBOutput lastClose lastClose lastClose) in
    let latestStochastic :=
      last (Lib.Stochastic_calculate highs lows closes 14 3)
           (Lib.mkStochasticOutput 50 50) in
    let adx :=
      match Lib.adx (last (Lib.ADX_calculate highs lows closes 14) (Lib.mkADXOutput None)) with
      | Some a => if JS.truthy a then a else 25
      | None => 25
      end in
    let obv := calculateOBV priceData in
    let volumeSMA :=
      last (Lib.SMA_calculate volumes 20) (JS.get volumes (length volumes - 1)) in
    JS.ok (mkTechnicalIndicators
             rsi
             (mkMACD (orZero (Lib.MACD latestMacd))
                     (orZero (Lib.signal latestMacd))
                     (orZero (Lib.histogram latestMacd)))
             sma
             (mkEMA ema12 ema26)
             (mkBollinger (Lib.upper latestBB) (Lib.middle latestBB) (Lib.lower latestBB))
             (mkStochastic (Lib.k latestStochastic) (Lib.d latestStochastic))
             adx obv volumeSMA).

(** The result of [calculateSupportResistance]. *)
Record SupportResistance : Type := mkSupportResistance {
  support : JS.number;
  resistance : JS.number
}.

Definition calculateSupportResistance (priceData : list PriceData) : SupportResistance :=
  let recentData := JS.slice_from (-50) priceData in
  let lows := map low recentData in
  let highs := map high recentData in
  let support := JS.Math_min_all lows in
  let resistance := JS.Math_max_all highs in
  mkSupportResistance support resistance.

End WithPackage.

End TechnicalIndicatorsEngine.

(** ** Trend analysis ([lib/analysis/trends.ts]) *)

Module Trends.
Local Open Scope float_scope.

Inductive TrendSide : Type := up | down.

(** The message of the [TypeError] raised by reading [.close] of the
    missing last element of an empty array. *)
Definition readCloseOfUndefined : JS.exn :=
  JS.TypeError "Cannot read properties of undefined (reading 'close')".

Definition calculateEMA (values : list JS.number) (period : nat) : JS.number :=
  if (length values <? period)%nat then JS.get values (length values - 1)
  else
    let multiplier := 2 / (JS.of_nat period + 1) in
    let seed := JS.sum (JS.slice 0 (Z.of_nat period) values) / JS.of_nat period in
    fold_left (fun ema i => (JS.get values i - ema) * multiplier + ema)
              (seq period (length values - period)) seed.

Definition calculateTrendStrength (priceData : list PriceData) (direction : TrendSide)
  : JS.number :=
  let recentPrices := map close (JS.slice_from (-20) priceData) in
  let firstPrice := JS.get recentPrices 0 in
  let lastPrice := JS.get recentPrices (length recentPrices - 1) in
  let priceChange :=
    match direction with
    | up => ((lastPrice - firstPrice) / firstPrice) * 100
    | down => ((firstPrice - lastPrice) / firstPrice) * 100
    end in
  let consistentDays :=
    fold_left
      (fun (count : nat) i =>
         match direction with
         | up =>
             if JS.get recentPrices i >=? JS.get recentPrices (i - 1)
             then S count else count
         | down =>
             if JS.get recentPrices i <=? JS.get recentPrices (i - 1)
             then S count else count
         end)
      (seq 1 (length recentPrices - 1)) 0%nat in
  let consistency :=
    (JS.of_nat consistentDays / (JS.of_nat (length recentPrices) - 1)) * 100 in
  JS.Math_min 100 (priceChange * 2 + consistency * 0.5).

Definition detectReversal (priceData : list PriceData) (indicators : TechnicalIndicators)
  : bool :=
  let recentPrices := map close (JS.slice_from (-14) priceData) in
  let priceTrend :=
    if JS.get recentPrices (length recentPrices - 1) >? JS.get recentPrices 0
    then up else down in
  let rsiOverbought := rsi indicators >? 70 in
  let rsiOversold := rsi indicators <? 30 in
  match priceTrend with
  | up =>
      if rsiOverbought && (histogram (macd indicators) <? 0) then true else false
  | down =>
      if rsiOversold && (histogram (macd indicators) >? 0) then true else false
  end.

(** The crossover block of [analyzeTrend]. *)
Definition crossover (technicalIndicators : TechnicalIndicators)
           (priceData : list PriceData) : Crossover :=
  let ema12 := ema12 (ema technicalIndicators) in
  let ema26 := ema26 (ema technicalIndicators) in
  if (2 <=? length priceData)%nat then
    let prevEma12 := calculateEMA (map close (JS.slice 0 (-1) priceData)) 12 in
    let prevEma26 := calculateEMA (map close (JS.slice 0 (-1) priceData)) 26 in
    if (ema12 >? ema26) && (prevEma12 <=? prevEma26) then bullish
    else if (ema12 <? ema26) && (prevEma12 >=? prevEma26) then bearish
    else none
  else none.

Definition analyzeTrend (technicalIndicators : TechnicalIndicators)
           (priceData : list PriceData) : JS.result TrendAnalysis :=
  match priceData with
  | [] => JS.throw readCloseOfUndefined
  | _ :: _ =>
      let currentPrice := close (TechnicalIndicatorsEngine.bar priceData (length priceData - 1)) in
      let sma20 := sma20 (sma technicalIndicators) in
      let sma50 := sma50 (sma technicalIndicators) in
      let sma200 := sma200 (sma technicalIndicators) in
      let movingAverageCrossover := crossover technicalIndicators priceData in
      let '(direction, strength) :=
        if (currentPrice >? sma20) && (sma20 >? sma50) && (sma50 >? sma200)
        then (uptrend, calculateTrendStrength priceData up)
        else if (currentPrice <? sma20) && (sma20 <? sma50) && (sma50 <? sma200)
        then (downtrend, calculateTrendStrength priceData down)
        else (sideways, 25) in
      let reversalSignal := detectReversal priceData technicalIndicators in
      JS.ok (mkTrendAnalysis direction
                             (JS.Math_max 0 (JS.Math_min 100 strength))
                             reversalSignal
                             movingAverageCrossover)
  end.

End Trends.

(** ** Momentum scoring ([lib/analysis/momentum.ts]) *)

Module Momentum.
Local Open Scope float_scope.

(** [priceData[Math.max(0, priceData.length - n)].close] *)
Definition closeBack (priceData : list PriceData) (n : Z) : JS.number :=
  close (TechnicalIndicatorsEngine.bar priceData
           (Z.to_nat (Z.max 0 (Z.of_nat (length priceData) - n)))).

Section Scores.
Variable technicalIndicators : TechnicalIndicators.
Variable priceData : list PriceData.

Definition currentPrice : JS.number :=
  close (TechnicalIndicatorsEngine.bar priceData (length priceData - 1)).
Definition price20DaysAgo : JS.number := closeBack priceData 20.
Definition price50DaysAgo : JS.number := closeBack priceData 50.

Definition rsiScore : JS.number :=
  if rsi technicalIndicators <? 30
  then 100 - (rsi technicalIndicators / 30) * 50
  else if rsi technicalIndicators >? 70
  then 50 - ((rsi technicalIndicators - 70) / 30) * 50
  else 50 + ((50 - JS.Math_abs (rsi technicalIndicators - 50)) / 20) * 30.

Definition macdScore : JS.number :=
  if MACD (macd technicalIndicators) >? signal (macd technicalIndicators)
  then 50 + JS.Math_min 50 ((histogram (macd technicalIndicators) / currentPrice) * 10000)
  else 50 - JS.Math_min 50
              (JS.Math_abs (histogram (macd technicalIndicators) / currentPrice) * 10000).

Definition smaScore : JS.number :=
  if currentPrice >? sma20 (sma technicalIndicators)
  then if currentPrice >? sma50 (sma technicalIndicators)
       then if currentPrice >? sma200 (sma technicalIndicators)
            then 100
            else 75
       else 50
  else 25.

Definition bbPosition : JS.number :=
  (currentPrice - lower (bollingerBands technicalIndicators)) /
  (upper (bollingerBands technicalIndicators) - lower (bollingerBands technicalIndicators)).

Definition bbScore : JS.number :=
  if bbPosition <? 0.2 then 100
  else if bbPosition >? 0.8 then 0
  else 50 + (0.5 - bbPosition) * 100.

Definition stochasticScore : JS.number :=
  if k (stochastic technicalIndicators) <? 20 then 100
  else if k (stochastic technicalIndicators) >? 80 then 0
  else 50 + (50 - k (stochastic technicalIndicators)) * 0.625.

Definition adxScore : JS.number :=
  if adx technicalIndicators >? 25
  then JS.Math_min 100 (50 + (adx technicalIndicators - 25) * 2)
  else adx technicalIndicators * 2.

Definition shortTermMomentum : JS.number :=
  ((currentPrice - price20DaysAgo) / price20DaysAgo) * 100.
Definition longTermMomentum : JS.number :=
  ((currentPrice - price50DaysAgo) / price50DaysAgo) * 100.

Definition shortTermScore : JS.number :=
  50 + JS.Math_min 50 (JS.Math_max (-50) (shortTermMomentum * 5)).
Definition longTermScore : JS.number :=
  50 + JS.Math_min 50 (JS.Math_max (-50) (longTermMomentum * 2)).

Definition recentVolume : JS.number :=
  fold_left (fun sum d => sum + JS.or_else (volume d) 0)
            (JS.slice_from (-5) priceData) 0 / 5.

Definition volumeScore : JS.number :=
  if recentVolume >? volumeSMA technicalIndicators then 75 else 25.

Definition technicalScore : JS.number :=
  rsiScore * 0.15 +
  macdScore * 0.20 +
  smaScore * 0.20 +
  bbScore * 0.10 +
  stochasticScore * 0.10 +
  adxScore * 0.10 +
  volumeScore * 0.15.

Definition overallScore : JS.number :=
  technicalScore * 0.6 +
  shortTermScore * 0.25 +
  longTermScore * 0.15.

Definition calculateMomentumScore : JS.result MomentumScore :=
  match priceData with
  | [] => JS.throw Trends.readCloseOfUndefined
  | _ :: _ =>
      JS.ok (mkMomentumScore
               (JS.Math_max 0 (JS.Math_min 100 overallScore))
               (JS.Math_max 0 (JS.Math_min 100 shortTermScore))
               (JS.Math_max 0 (JS.Math_min 100 longTermScore))
               (mkBreakdown
                  (JS.Math_max 0 (JS.Math_min 100 technicalScore))
                  (JS.Math_max 0 (JS.Math_min 100 adxScore))
                  (JS.Math_max 0 (JS.Math_min 100 volumeScore))))
  end.

End Scores.

End Momentum.

(** ** Volume fundamentals ([analyzeFundamentals]) *)

Module Fundamentals.
Local Open Scope float_scope.

Section VolumeTrend.
Variable priceData : list PriceData.

Definition recentVolumes : list JS.number :=
  map volume (JS.slice_from (-20) priceData).
Definition olderVolumes : list JS.number :=
  map volume (JS.slice (-40) (-20) priceData).

Definition recentAvgVolume : JS.number :=
  JS.sum recentVolumes / JS.of_nat (length recentVolumes).
Definition olderAvgVolume : JS.number :=
  JS.sum olderVolumes / JS.of_nat (length olderVolumes).

Definition volumeChangePercent : JS.number :=
  ((recentAvgVolume - olderAvgVolume) / olderAvgVolume) * 100.
End VolumeTrend.

Definition analyzeFundamentals (priceData : list PriceData)
           (marketCap peRatio priceToBook : option JS.number) : FundamentalData :=
  let volumeTrend :=
    if volumeChangePercent priceData >? 10 then increasing
    else if volumeChangePercent priceData <? -10 then decreasing
    else stable in
  mkFundamentalData peRatio marketCap priceToBook volumeTrend (recentAvgVolume priceData).

Definition calculateFundamentalScore (fundamentals : FundamentalData) : JS.number :=
  let score := 50 in
  let score :=
    match volumeTrend fundamentals with
    | increasing => score + 15
    | decreasing => score - 15
    | stable => score
    end in
  let score :=
    match peRatio fundamentals with
    | Some pe =>
        if (pe >? 0) && (pe <? 10) then score + 10
        else if pe >? 25 then score - 10
        else score
    | None => score
    end in
  let score :=
    match priceToBook fundamentals with
    | Some pb =>
        if (pb >? 0) && (pb <? 1) then score + 10
        else if pb >? 3 then score - 10
        else score
    | None => score
    end in
  JS.Math_max 0 (JS.Math_min 100 score).

End Fundamentals.

(** ** The batch loops of the API routes

    Both routes analyse a fixed watch-list one entry at a time.  The
    per-entry analysis awaits the data provider and may reject; it is taken
    as a function to a result.  The console is part of the state. *)

Module Routes.
Local Open Scope string_scope.

(** One [console.error] call: its arguments, texts or the caught error. *)
Inductive LogArg : Type :=
| Text (text : string)
| Thrown (error : JS.exn).

Definition LogEntry : Type := list LogArg.

(** [error instanceof Error ? error.message : String(error)] *)
Definition messageOf (error : JS.exn) : string :=
  match error with
  | JS.Error message => message
  | JS.TypeError message => message
  end.

Record LoopState : Type := mkLoopState {
  assets : list Asset.t;
  console : list LogEntry
}.

Section ForOf.
Context {Entry : Type}.
(** [await analyze(entry)]: the resolved asset or the rejection. *)
Variable analyze : Entry -> JS.result Asset.t.
(** What the [catch] block writes to the console. *)
Variable report : Entry -> JS.exn -> list LogEntry.

(** The body of the loop: [try { assets.push(await analyze(entry)) }
    catch (error) { console.error(...) }]. *)
Definition tryAnalyze (st : LoopState) (entry : Entry) : LoopState :=
  match analyze entry with
  | inr asset => mkLoopState (JS.push (assets st) asset) (console st)
  | inl error => mkLoopState (assets st) (console st ++ report entry error)
  end.

(** [const assets = []; for (const entry of entries) { ... }] *)
Definition analyzeAll (entries : list Entry) : LoopState :=
  fold_left tryAnalyze entries (mkLoopState [] []).
End ForOf.

(** [(a, b) => b.overallScore - a.overallScore] *)
Definition byScoreDescending (a b : Asset.t) : JS.number :=
  (Asset.overallScore b - Asset.overallScore a)%float.

(** The [NextResponse.json] bodies of the batch branch. *)
Inductive Response : Type :=
| AssetsResponse (assets : list Asset.t)
| AllFailedResponse (assets : list Asset.t) (error message : string) (status : nat)
| ErrorResponse (error : string) (status : nat).

Module Crypto.
Record Coin : Type := mkCoin { id : string; symbol : string; name : string }.

Definition CRYPTO_COINS : list Coin :=
  [ mkCoin "bitcoin" "BTC" "Bitcoin";
    mkCoin "ethereum" "ETH" "Ethereum";
    mkCoin "binancecoin" "BNB" "BNB";
    mkCoin "solana" "SOL" "Solana";
    mkCoin "cardano" "ADA" "Cardano";
    mkCoin "ripple" "XRP" "XRP";
    mkCoin "polkadot" "DOT" "Polkadot";
    mkCoin "dogecoin" "DOGE" "Dogecoin";
    mkCoin "matic-network" "MATIC" "Polygon";
    mkCoin "avalanche-2" "AVAX" "Avalanche" ].

Section GET.
(** [analyzeCrypto(coinId, name)] *)
Variable analyzeCrypto : string -> string -> JS.result Asset.t.

Definition report (coin : Coin) (error : JS.exn) : list LogEntry :=
  [[Text ("Error analyzing " ++ symbol coin ++ ":"); Thrown error]].

Definition batch : LoopState :=
  analyzeAll (fun coin => analyzeCrypto (id coin) (name coin)) report
             (JS.slice 0 5 CRYPTO_COINS).

(** The branch of [GET] without [symbol] or [coinId]. *)
Definition GET : Response :=
  AssetsResponse (JS.sort byScoreDescending (assets batch)).
End GET.
End Crypto.

Module India.
Record Stock : Type := mkStock { symbol : string; name : string }.

Definition INDIAN_STOCKS : list Stock :=
  [ mkStock "RELIANCE" "Reliance Industries Ltd";
    mkStock "TCS" "Tata Consultancy Services";
    mkStock "HDFCBANK" "HDFC Bank Ltd";
    mkStock "INFY" "Infosys Ltd";
    mkStock "HINDUNILVR" "Hindustan Unilever Ltd";
    mkStock "ICICIBANK" "ICICI Bank Ltd";
    mkStock "BHARTIARTL" "Bharti Airtel Ltd";
    mkStock "SBIN" "State Bank of India";
    mkStock "BAJFINANCE" "Bajaj Finance Ltd";
    mkStock "LICI" "Life Insurance Corporation of India" ].

Section GET.
(** [analyzeStock(symbol, name)] *)
Variable analyzeStock : string -> string -> JS.result Asset.t.

Definition report (stock : Stock) (error : JS.exn) : list LogEntry :=
  [[Text ("Error analyzing " ++ symbol stock ++ ":"); Text (messageOf error)];
   [Text "Full error:"; Thrown error]].

Definition batch : LoopState :=
  analyzeAll (fun stock => analyzeStock (symbol stock) (name stock)) report
             (JS.slice 0 5 INDIAN_STOCKS).

(** The branch of [GET] without [symbol]. *)
Definition GET : Response :=
  match assets batch with
  | [] =>
      AllFailedResponse []
        "All Indian stock requests failed. Check server logs for details."
        "Unable to fetch Indian stock data. This may be due to API rate limits or network issues."
        503
  | _ :: _ => AssetsResponse (JS.sort byScoreDescending (assets batch))
  end.
End GET.
End India.

End Routes.

(** ** The specification's wording

Definitions that follow the prose of the specification rather than the
    code; the theorems below compare the two. *)

Module Spec.
Local Open Scope float_scope.

(** The close of the last bar. *)
Definition lastClose (priceData : list PriceData) : JS.number :=
  last (map close priceData) JS.undefined.

(** [a > b > c > d] and [a < b < c < d], each comparison strict. *)
Definition strictlyAbove (a b c d : JS.number) : bool :=
  (a >? b) && (b >? c) && (c >? d).
Definition strictlyBelow (a b c d : JS.number) : bool :=
  (a <? b) && (b <? c) && (c <? d).

(** [clamp(x, lo, hi)]. *)
Definition clamp (x lo hi : JS.number) : JS.number :=
  JS.Math_min hi (JS.Math_max lo x).

(** OBV: walk the bars from the second one on, adding the bar's volume
    when its close rose against the bar before, subtracting it when it
    fell, and leaving the total alone on a tie. *)
Fixpoint signedVolumeFrom (previous : PriceData) (rest : list PriceData)
         (total : JS.number) : JS.number :=
  match rest with
  | [] => total
  | current :: rest' =>
      signedVolumeFrom current rest'
        (if close previous <? close current then total + volume current
         else if close current <? close previous then total - volume current
         else total)
  end.

Definition cumulativeSignedVolume (priceData : list PriceData) : JS.number :=
  match priceData with
  | [] => 0
  | first :: rest => signedVolumeFrom first rest 0
  end.

(** Every close is strictly above the one before it. *)
Fixpoint strictlyIncreasing (closes : list JS.number) : bool :=
  match closes with
  | [] => true
  | c :: rest =>
      match rest with
      | [] => true
      | c' :: _ => (c <? c') && strictlyIncreasing rest
      end
  end.

(** The volumes of all bars from the second bar onward, summed from 0 in
    series order. *)
Definition volumeFromSecondBar (priceData : list PriceData) : JS.number :=
  JS.sum (map volume (tl priceData)).

(** The trailing [n] bars, and the [n] bars before those. *)
Definition trailing {A : Type} (n : nat) (series : list A) : list A :=
  skipn (length series - n) series.
Definition prior {A : Type} (n : nat) (series : list A) : list A :=
  firstn n (skipn (length series - (n + n)) series).

(** The 20-bar average volume of a window. *)
Definition average20 (window : list PriceData) : JS.number :=
  JS.sum (map volume window) / 20.

(** [volumeChangePct = (recent - older) / older * 100]. *)
Definition volumeChangePct (priceData : list PriceData) : JS.number :=
  let recentAvgVolume := average20 (trailing 20 priceData) in
  let olderAvgVolume := average20 (prior 20 priceData) in
  (recentAvgVolume - olderAvgVolume) / olderAvgVolume * 100.

(** The close of the bar the specification calls [n] days prior: the bar
    at index [length - n], the index clamped to 0 when the series is
    shorter than [n]. *)
Definition closeDaysPrior (priceData : list PriceData) (n : nat) : JS.number :=
  if (length priceData <? n)%nat
  then JS.get (map close priceData) 0
  else JS.get (map close priceData) (length priceData - n).

(** Percent price change of the last close against the bar [n] days prior. *)
Definition percentChange (priceData : list PriceData) (n : nat) : JS.number :=
  (lastClose priceData - closeDaysPrior priceData n) / closeDaysPrior priceData n * 100.

Definition shortTermComponent (priceData : list PriceData) : JS.number :=
  50 + clamp (percentChange priceData 20 * 5) (-50) 50.
Definition longTermComponent (priceData : list PriceData) : JS.number :=
  50 + clamp (percentChange priceData 50 * 2) (-50) 50.

(** The EMA pair of a series of closes, and of the series with its last
    bar dropped. *)
Definition crossesAboveAtLastBar (closes : list JS.number) : bool :=
  (Trends.calculateEMA (removelast closes) 12 <=? Trends.calculateEMA (removelast closes) 26)
  && (Trends.calculateEMA closes 12 >? Trends.calculateEMA closes 26).

(** The assets of the entries whose analysis succeeded, in watch-list
    order, and the entries whose analysis failed. *)
Definition succeeded {Entry : Type} (analyze : Entry -> JS.result Asset.t)
           (entries : list Entry) : list Asset.t :=
  flat_map (fun entry => match analyze entry with inr a => [a] | inl _ => [] end) entries.
Definition failed {Entry : Type} (analyze : Entry -> JS.result Asset.t)
           (entries : list Entry) : list (Entry * JS.exn) :=
  flat_map (fun entry => match analyze entry with inr _ => [] | inl e => [(entry, e)] end)
           entries.

End Spec.

(** ** Concrete inputs

    Series, indicator bundles and an instance of the package interface on
    which the definitions above are run. *)

Module Examples.
Local Open Scope float_scope.

(** A bar whose open, high, low and close all equal [c]. *)
Definition flatBar (c v : JS.number) : PriceData := mkPriceData "" c c c c v.

(** The moving averages computed as the package documents them: the SMA
    is the mean of each full window, the EMA is seeded by the mean of the
    first window.  The oscillators yield no values, so the engine's
    defaults apply. *)
Definition smaValues (values : list JS.number) (period : nat) : list JS.number :=
  if (length values <? period)%nat then []
  else map (fun i => JS.sum (firstn period (skipn i values)) / JS.of_nat period)
           (seq 0 (length values + 1 - period)).

Definition emaValues (values : list JS.number) (period : nat) : list JS.number :=
  if (length values <? period)%nat then []
  else map (fun n => Trends.calculateEMA (firstn n values) period)
           (seq period (length values + 1 - period)).

Definition movingAveragePackage : Lib.Package :=
  {| Lib.RSI_calculate := fun _ _ => [];
     Lib.MACD_calculate := fun _ _ _ _ _ _ => [];
     Lib.SMA_calculate := smaValues;
     Lib.EMA_calculate := emaValues;
     Lib.BollingerBands_calculate := fun _ _ _ => [];
     Lib.Stochastic_calculate := fun _ _ _ _ _ => [];
     Lib.ADX_calculate := fun _ _ _ _ => [] |}.

(** An indicator bundle with the given RSI and EMA pair; every other
    field sits at a neutral value. *)
Definition indicators (rsi ema12 ema26 : JS.number) : TechnicalIndicators :=
  mkTechnicalIndicators rsi (mkMACD 0 0 0) (mkSMA 100 100 100) (mkEMA ema12 ema26)
                        (mkBollinger 110 100 90) (mkStochastic 50 50) 25 0 1000.

(** Fifty bars at a constant close of 100 and volume 1000. *)
Definition flat50 : list PriceData := repeat (flatBar 100 1000) 50.

(** Three rising closes with volumes 10, 20 and 30. *)
Definition rising3 : list PriceData :=
  [flatBar 1 10; flatBar 2 20; flatBar 3 30].

(** Sixty bars at a close of 100, except a close of 80 twenty-one bars
    from the end (index 39) and a close of 50 fifty-one bars from the end
    (index 9). *)
Definition dipped60 : list PriceData :=
  map (fun i => if (i =? 39)%nat then flatBar 80 1000
                else if (i =? 9)%nat then flatBar 50 1000
                else flatBar 100 1000)
      (seq 0 60).

(** Fifty-nine bars at a close of 100 and a last bar at 102. *)
Definition uptick60 : list PriceData :=
  repeat (flatBar 100 1000) 59 ++ [flatBar 102 1000].

(** Twenty-six closes falling from 126 to 101, then a jump to 1000. *)
Definition jumpCloses : list JS.number :=
  map (fun i => 126 - JS.of_nat i) (seq 0 26) ++ [1000].
Definition jumpSeries : list PriceData := map (fun c => flatBar c 1000) jumpCloses.

(** Forty bars: twenty at volume 1000, then twenty at volume 2000. *)
Definition doubled40 : list PriceData :=
  repeat (flatBar 100 1000) 20 ++ repeat (flatBar 100 2000) 20.

(** An asset with the given symbol and overall score. *)
Definition asset (symbol : string) (overallScore : JS.number) : Asset.t :=
  Asset.mk symbol symbol crypto 100 0 0 [] (indicators 50 100 100)
           (mkFundamentalData None None None stable 1000)
           (mkTrendAnalysis sideways 25 false none)
           (mkMomentumScore 50 50 50 (mkBreakdown 50 50 50))
           overallScore hold 50.

(** A provider that fails for Ethereum and Solana and succeeds, with a
    fixed score, for every other coin. *)
Definition flakyCrypto (coinId name : string) : JS.result Asset.t :=
  if String.eqb coinId "ethereum" then JS.throw (JS.Error "rate limited")
  else if String.eqb coinId "solana" then JS.throw (JS.Error "no data")
  else if String.eqb coinId "bitcoin" then JS.ok (asset name 40)
  else JS.ok (asset name 60).

End Examples.

(** ** The per-symbol analyses of the routes

    [analyzeStock] of the Indian route and [analyzeCrypto] of the crypto
    route.  The data provider and the quote service are awaited and may
    reject; the scoring helpers live in a module that is not part of the
    sources at hand and are taken as an interface.  Writes to the console
    are left out: they do not reach the result. *)

Module Analyzers.
Local Open Scope float_scope.

(** What the quote services resolve to. *)
Record Quote : Type := mkQuote {
  symbol : string;
  price : JS.number;
  change : JS.number;
  changePercent : JS.number
}.

(** [quote.symbol], under a name the [symbol] parameters do not hide. *)
Definition quoteSymbol (quote : Quote) : string := symbol quote.

(** [calculateOverallScore], [calculateConfidence] and [getRecommendation]
    of the scoring module. *)
Class Scoring : Type := {
  calculateOverallScore : Asset.t -> JS.number;
  calculateConfidence : Asset.t -> JS.number;
  getRecommendation : JS.number -> JS.number -> RecommendationLabel
}.

Section WithCollaborators.
Context {pkg : Lib.Package} {scoring : Scoring}.

(** The second phase of the construction: the three scoring fields are
    filled in, in this order, on the asset built so far. *)
Definition fillScores (asset : Asset.t) : Asset.t :=
  let asset := Asset.set_overallScore asset (calculateOverallScore asset) in
  let asset := Asset.set_confidence asset (calculateConfidence asset) in
  Asset.set_recommendation
    asset (getRecommendation (Asset.overallScore asset) (Asset.confidence asset)).

(** [name || symbol] for the optional [name] parameter. *)
Definition nameOr (name : option string) (symbol : string) : string :=
  match name with
  | Some n => JS.nonempty_or n symbol
  | None => symbol
  end.

(** [p.catch(() => null)], and a [try] around an awaited call that leaves
    [null] behind. *)
Definition orNull {A : Type} (call : JS.result A) : option A :=
  match call with
  | inr value => Some value
  | inl _ => None
  end.

Section India.
(** [fetchIndianStockData(symbol)] *)
Variable fetchIndianStockData : string -> JS.result (list PriceData).
(** [getIndianStockQuote(symbol)] raced against the five-second timer: the
    quote, or the rejection of whichever lost. *)
Variable getIndianStockQuote : string -> JS.result Quote.

Definition tooFewBars (symbol : string) (n : nat) : JS.exn :=
  JS.Error ("Insufficient data for " ++ symbol ++ ": only " ++ JS.show_nat n
            ++ " data points available (minimum 30 required)")%string.

Definition analyzeStock (symbol : string) (name : option string) : JS.result Asset.t :=
  try! priceData <- fetchIndianStockData symbol;
  if (length priceData <? 30)%nat then JS.throw (tooFewBars symbol (length priceData))
  else
    let quote := orNull (getIndianStockQuote symbol) in
    try! technicalIndicators <- TechnicalIndicatorsEngine.calculateTechnicalIndicators priceData;
    try! momentum <- Momentum.calculateMomentumScore technicalIndicators priceData;
    try! trend <- Trends.analyzeTrend technicalIndicators priceData;
    let fundamentals := Fundamentals.analyzeFundamentals priceData None None None in
    let latestClose := close (TechnicalIndicatorsEngine.bar priceData (length priceData - 1)) in
    let previousClose :=
      if (1 <? length priceData)%nat
      then close (TechnicalIndicatorsEngine.bar priceData (length priceData - 2))
      else latestClose in
    let currentPrice :=
      match quote with
      | Some q => JS.or_else (price q) latestClose
      | None => latestClose
      end in
    let '(priceChange, priceChangePercent) :=
      match quote with
      | Some q => (change q, changePercent q)
      | None =>
          if (1 <? length priceData)%nat
          then (currentPrice - previousClose,
                if previousClose >? 0
                then ((currentPrice - previousClose) / previousClose) * 100
                else 0)
          else (0, 0)
      end in
    JS.ok (fillScores
             (Asset.mk
                (match quote with Some q => JS.nonempty_or (quoteSymbol q) symbol
                                | None => symbol end)
                (nameOr name symbol)
                indian_stock
                currentPrice priceChange priceChangePercent
                (JS.slice_from (-100) priceData)
                technicalIndicators fundamentals trend momentum
                0 hold 0)).
End India.

Section Crypto.
(** [fetchCryptoData(coinId, 365)] *)
Variable fetchCryptoData : string -> nat -> JS.result (list PriceData).
(** [getCryptoQuote(coinId)] *)
Variable getCryptoQuote : string -> JS.result Quote.
(** [String.prototype.toUpperCase] *)
Variable toUpperCase : string -> string.

Definition tooFewPoints (coinId : string) (n : nat) : JS.exn :=
  JS.Error ("Insufficient data for " ++ coinId ++ ": got " ++ JS.show_nat n
            ++ " points, need at least 50")%string.

Definition analyzeCrypto (coinId : string) (name : option string) : JS.result Asset.t :=
  try! priceData <- fetchCryptoData coinId 365;
  let quote := orNull (getCryptoQuote coinId) in
  if (length priceData <? 50)%nat then JS.throw (tooFewPoints coinId (length priceData))
  else
    try! technicalIndicators <- TechnicalIndicatorsEngine.calculateTechnicalIndicators priceData;
    try! momentum <- Momentum.calculateMomentumScore technicalIndicators priceData;
    try! trend <- Trends.analyzeTrend technicalIndicators priceData;
    let fundamentals := Fundamentals.analyzeFundamentals priceData None None None in
    let lastClose := close (TechnicalIndicatorsEngine.bar priceData (length priceData - 1)) in
    let currentPrice :=
      match quote with
      | Some q => JS.or_else (price q) lastClose
      | None => lastClose
      end in
    let priceChange := match quote with Some q => JS.or_else (change q) 0 | None => 0 end in
    let priceChangePercent :=
      match quote with Some q => JS.or_else (changePercent q) 0 | None => 0 end in
    JS.ok (fillScores
             (Asset.mk
                (match quote with
                 | Some q => JS.nonempty_or (quoteSymbol q) (toUpperCase coinId)
                 | None => toUpperCase coinId
                 end)
                (nameOr name coinId)
                crypto
                currentPrice priceChange priceChangePercent
                (JS.slice_from (-100) priceData)
                technicalIndicators fundamentals trend momentum
                0 hold 0)).
End Crypto.

End WithCollaborators.

End Analyzers.

(** ** The recommendations route ([app/api/recommendations/route.ts])

    The route calls the three asset routes over HTTP and ranks what they
    return.  A call may reject, answer with a failure status, or carry a
    body that does not parse; [createRecommendation] belongs to the scoring
    module and may throw. *)

Module Recommendations.

(** The parsed body of an asset route: [{ assets }] or [{ asset }]. *)
Record RouteData : Type := mkRouteData {
  assets : option (list Asset.t);
  asset : option Asset.t
}.

(** What [fetch] resolves to: [response.ok] and [await response.json()]. *)
Record FetchResponse : Type := mkFetchResponse {
  ok : bool;
  json : JS.result RouteData
}.

Record Recommendation : Type := mkRecommendation {
  recommended : Asset.t;
  reasoning : list string;
  keyMetrics : list (string * (string + JS.number))
}.

(** The two JSON answers of the route. *)
Inductive Response : Type :=
| Ranked (recommendations : list Recommendation) (total filtered totalAnalyzed : nat)
| Failed (error : string) (status : nat).

Section GET.
(** [fetch(origin + path)] *)
Variable fetch : string -> JS.result FetchResponse.
Variable createRecommendation : Asset.t -> JS.result Recommendation.

(** [!assetType || assetType === wanted] for the [type] query parameter. *)
Definition selects (assetType : option string) (wanted : string) : bool :=
  match assetType with
  | None => true
  | Some EmptyString => true
  | Some given => String.eqb given wanted
  end.

(** One [try { ... } catch { console.error(...) }] block: the assets of one
    route are appended when the call resolves with [ok] and a body that
    holds [assets] or [asset]. *)
Definition collect (path : string) (allAssets : list Asset.t) : list Asset.t :=
  match fetch path with
  | inr response =>
      if ok response then
        match json response with
        | inr data =>
            match assets data with
            | Some more => allAssets ++ more
            | None =>
                match asset data with
                | Some one => JS.push allAssets one
                | None => allAssets
                end
            end
        | inl _ => allAssets
        end
      else allAssets
  | inl _ => allAssets
  end.

Definition gather (assetType : option string) : list Asset.t :=
  let allAssets := [] in
  let allAssets :=
    if selects assetType "us_stock" then collect "/api/stocks/us" allAssets else allAssets in
  let allAssets :=
    if selects assetType "indian_stock" then collect "/api/stocks/india" allAssets
    else allAssets in
  let allAssets :=
    if selects assetType "crypto" then collect "/api/crypto" allAssets else allAssets in
  allAssets.

(** [assets.map(createRecommendation)], stopping at the first throw. *)
Fixpoint createAll (top : list Asset.t) : JS.result (list Recommendation) :=
  match top with
  | [] => JS.ok []
  | a :: rest =>
      try! r <- createRecommendation a;
      try! rs <- createAll rest;
      JS.ok (r :: rs)
  end.

Definition GET (assetType : option string) : Response :=
  let allAssets := gather assetType in
  let filteredAssets :=
    filter (fun a => (Asset.confidence a >=? 0)%float) allAssets in
  let filteredAssets := JS.sort Routes.byScoreDescending filteredAssets in
  let topAssets := JS.slice 0 20 filteredAssets in
  match createAll topAssets with
  | inr recommendations =>
      Ranked recommendations (length recommendations) (length filteredAssets)
             (length allAssets)
  | inl _ => Failed "Failed to generate recommendations" 500
  end.

End GET.

End Recommendations.

(** ** The conversion of a Yahoo chart into bars ([lib/data/yahooFinance.ts])

    The [map] and [filter] of [fetchIndianStockData] that turn the parallel
    arrays of a chart result into price bars.  An entry of an array may be
    [null] or missing. *)

Module YahooFinance.
Local Open Scope float_scope.

Section Conversion.
(** [new Date(timestamp * 1000).toISOString().split('T')[0]] *)
Variable isoDay : JS.number -> string.

(** [values[index] || 0] *)
Definition valueOrZero (values : list (option JS.number)) (index : nat) : JS.number :=
  match nth_error values index with
  | Some (Some v) => JS.or_else v 0
  | _ => 0
  end.

Definition toPriceData (timestamps : list JS.number)
           (opens highs lows closes volumes : list (option JS.number)) : list PriceData :=
  filter (fun data => close data >? 0)
         (map (fun entry : nat * JS.number =>
                 let (index, timestamp) := entry in
                 mkPriceData (isoDay (timestamp * 1000))
                             (valueOrZero opens index)
                             (valueOrZero highs index)
                             (valueOrZero lows index)
                             (valueOrZero closes index)
                             (valueOrZero volumes index))
              (combine (seq 0 (length timestamps)) timestamps)).

End Conversion.

End YahooFinance.

(** ** Ranges of reported values *)

Module Ranges.
Local Open Scope float_scope.

(** [lo <= x <= hi]; false when [x] is [NaN]. *)
Definition between (lo hi x : JS.number) : bool := (lo <=? x) && (x <=? hi).

(** A percentage: within [0, 100]. *)
Definition percent (x : JS.number) : bool := between 0 100 x.

(** A percentage, or [NaN]. *)
Definition percentOrNaN (x : JS.number) : bool := is_nan x || percent x.

End Ranges.

(** ** Further concrete inputs *)

Module MoreExamples.
Local Open Scope float_scope.

(** Scoring helpers that score every asset 50 with confidence 50. *)
Definition flatScoring : Analyzers.Scoring :=
  {| Analyzers.calculateOverallScore := fun _ => 50;
     Analyzers.calculateConfidence := fun _ => 50;
     Analyzers.getRecommendation := fun _ _ => hold |}.

(** [n] bars at a constant close of 100 and volume 1000. *)
Definition flatBars (n : nat) : list PriceData := repeat (Examples.flatBar 100 1000) n.

(** A provider with 60 flat bars for RELIANCE, 40 for TCS, 10 for INFY and
    a failure for every other symbol. *)
Definition provider (symbol : string) : JS.result (list PriceData) :=
  if String.eqb symbol "RELIANCE" then JS.ok (flatBars 60)
  else if String.eqb symbol "TCS" then JS.ok (flatBars 40)
  else if String.eqb symbol "INFY" then JS.ok (flatBars 10)
  else JS.throw (JS.Error "Failed to fetch").

(** A quote service that always fails. *)
Definition noQuote (symbol : string) : JS.result Analyzers.Quote :=
  JS.throw (JS.Error "Quote request timeout").

(** A crypto provider with 365 flat bars for bitcoin and 30 for every other
    coin. *)
Definition cryptoProvider (coinId : string) (days : nat) : JS.result (list PriceData) :=
  if String.eqb coinId "bitcoin" then JS.ok (flatBars days)
  else JS.ok (flatBars 30).

(** Bars whose lows are 5, 3 and 8 and whose highs are 7, 9 and 12. *)
Definition ranged3 : list PriceData :=
  [ mkPriceData "" 6 7 5 6 100; mkPriceData "" 4 9 3 8 100; mkPriceData "" 9 12 8 10 100 ].

(** An asset route that answers with twenty-five assets, one of them with
    a [NaN] confidence, while the two other routes fail. *)
Definition scored (overallScore confidence : JS.number) : Asset.t :=
  Asset.set_confidence (Examples.asset "X" overallScore) confidence.

Definition oneRoute (path : string) : JS.result Recommendations.FetchResponse :=
  if String.eqb path "/api/crypto"
  then JS.ok (Recommendations.mkFetchResponse true
                (JS.ok (Recommendations.mkRouteData
                          (Some (scored 10 nan :: repeat (scored 60 50) 24)) None)))
  else if String.eqb path "/api/stocks/us" then JS.throw (JS.Error "fetch failed")
  else JS.ok (Recommendations.mkFetchResponse false
                (JS.ok (Recommendations.mkRouteData (Some []) None))).

Definition plainRecommendation (a : Asset.t) : JS.result Recommendations.Recommendation :=
  JS.ok (Recommendations.mkRecommendation a [] []).

(** A chart of three days whose second close is missing and whose third
    open is [NaN]. *)
Definition chartDays : list JS.number := [1; 2; 3].
Definition chartCloses : list (option JS.number) := [Some 10; None; Some 12].
Definition chartOpens : list (option JS.number) := [Some 9; Some 10; Some nan].

End MoreExamples.

(** * Properties *)

(** ** Facts about binary64 comparisons and [NaN] *)

Section NumberFacts.
Local Open Scope float_scope.

Lemma SFcompare_antisym (x y : spec_float) :
  SFcompare y x =
  match SFcompare x y with Some c => Some (CompOpp c) | None => None end.
Proof.
  destruct x as [sx|sx| |sx mx ex], y as [sy|sy| |sy my ey]; simpl; try reflexivity;
    try (destruct sx; reflexivity); try (destruct sy; reflexivity);
    try (destruct sx, sy; reflexivity).
  destruct sx, sy; simpl; try reflexivity;
    rewrite (Z.compare_antisym ex ey); destruct (ex ?= ey)%Z; simpl; try reflexivity;
    change (Pos.compare_cont Eq my mx) with (Pos.compare my mx);
    change (Pos.compare_cont Eq mx my) with (Pos.compare mx my);
    rewrite (Pos.compare_antisym mx my); destruct (mx ?= my)%positive; reflexivity.
Qed.

(** [a < b] and [b < a] never hold together. *)
Lemma ltb_asym (a b : float) : (a <? b) = true -> (b <? a) = false.
Proof.
  rewrite !ltb_spec. unfold SFltb.
  rewrite (SFcompare_antisym (Prim2SF a) (Prim2SF b)).
  destruct (SFcompare (Prim2SF a) (Prim2SF b)) as [[]|]; simpl; congruence.
Qed.

Lemma gtb_ltb_false (a b : float) : (a >? b) = true -> (a <? b) = false.
Proof. unfold JS.gtb. apply ltb_asym. Qed.

(** Subtracting [NaN] yields [NaN]. *)
Lemma sub_nan_r (x : float) : x - nan = nan.
Proof.
  apply Prim2SF_inj. rewrite sub_spec.
  change (Prim2SF nan) with S754_nan.
  destruct (Prim2SF x); reflexivity.
Qed.

(** A number above 10 is not below -10. *)
Lemma above_10_not_below_neg_10 (x : float) : (x >? 10) = true -> (x <? -10) = false.
Proof.
  unfold JS.gtb. rewrite !ltb_spec. unfold SFltb.
  set (ten := Prim2SF 10). set (minusTen := Prim2SF (-10)).
  vm_compute in ten, minusTen. subst ten minusTen.
  destruct (Prim2SF x) as [s|s| |s m e]; [destruct s.. | | destruct s];
    cbn [SFcompare]; congruence.
Qed.

End NumberFacts.

(** ** Facts about arrays *)

Section ArrayFacts.
Context {A : Type}.

(** [arr.slice(-n)] keeps the last [n] elements. *)
Lemma slice_from_trailing (n : nat) (arr : list A) :
  0 < n -> JS.slice_from (- Z.of_nat n) arr = Spec.trailing n arr.
Proof.
  intros Hn. unfold JS.slice_from, Spec.trailing, JS.rel_index.
  replace (- Z.of_nat n <? 0)%Z with true by (symmetry; apply Z.ltb_lt; lia).
  f_equal. lia.
Qed.

(** [arr.slice(-2n, -n)] keeps the [n] elements before the last [n] of an
    array of at least [2n] elements. *)
Lemma slice_prior (n : nat) (arr : list A) :
  0 < n -> n + n <= length arr ->
  JS.slice (- Z.of_nat (n + n)) (- Z.of_nat n) arr = Spec.prior n arr.
Proof.
  intros Hn Hlen. unfold JS.slice, Spec.prior, JS.rel_index.
  replace (- Z.of_nat (n + n) <? 0)%Z with true by (symmetry; apply Z.ltb_lt; lia).
  replace (- Z.of_nat n <? 0)%Z with true by (symmetry; apply Z.ltb_lt; lia).
  f_equal; [lia | f_equal; lia].
Qed.

(** [arr.slice(0, -1)] drops the last element. *)
Lemma slice_drop_last (arr : list A) : JS.slice 0 (-1) arr = removelast arr.
Proof.
  unfold JS.slice, JS.rel_index. simpl (0 <? 0)%Z. simpl (-1 <? 0)%Z. cbv iota.
  rewrite removelast_firstn_len. simpl skipn. f_equal. simpl. lia.
Qed.

(** [arr[arr.length - 1]] is the last element. *)
Lemma nth_length_pred_last (arr : list A) (dflt : A) :
  nth (length arr - 1) arr dflt = last arr dflt.
Proof.
  induction arr as [|x [|y rest] IH]; try reflexivity.
  change (last (x :: y :: rest) dflt) with (last (y :: rest) dflt).
  rewrite <- IH. simpl. rewrite Nat.sub_0_r. reflexivity.
Qed.

End ArrayFacts.

(** ** On-balance volume *)

Section OnBalanceVolume.
Local Open Scope float_scope.
Import TechnicalIndicatorsEngine.

(** Behind a leading bar, iteration [i + 1] reads what iteration [i]
    reads without it. *)
Lemma obvStep_shift (first : PriceData) (series : list PriceData) (obv : JS.number) (i : nat) :
  (1 <= i)%nat -> obvStep (first :: series) obv (S i) = obvStep series obv i.
Proof.
  intros Hi. unfold obvStep, bar.
  replace (S i - 1)%nat with (S (i - 1)) by lia. reflexivity.
Qed.

Lemma obv_loop_shift (first : PriceData) (series : list PriceData) (count start : nat)
      (obv : JS.number) :
  (1 <= start)%nat ->
  fold_left (obvStep (first :: series)) (seq (S start) count) obv =
  fold_left (obvStep series) (seq start count) obv.
Proof.
  revert start obv. induction count as [|count IH]; intros start obv Hstart.
  - reflexivity.
  - simpl. rewrite obvStep_shift by assumption. apply IH. lia.
Qed.

(** The index loop computes the walk over adjacent bars. *)
Lemma obv_loop_walk (rest : list PriceData) :
  forall (previous : PriceData) (obv : JS.number),
    fold_left (obvStep (previous :: rest)) (seq 1 (length rest)) obv =
    Spec.signedVolumeFrom previous rest obv.
Proof.
  induction rest as [|current rest IH]; intros previous obv.
  - reflexivity.
  - cbn [length seq fold_left Spec.signedVolumeFrom].
    rewrite obv_loop_shift by lia. rewrite IH. reflexivity.
Qed.

(** Over strictly rising closes the walk adds every volume. *)
Lemma signedVolume_rising (rest : list PriceData) :
  forall (previous : PriceData) (obv : JS.number),
    Spec.strictlyIncreasing (close previous :: map close rest) = true ->
    Spec.signedVolumeFrom previous rest obv =
    fold_left (fun acc v => acc + v) (map volume rest) obv.
Proof.
  induction rest as [|current rest IH]; intros previous obv Hup.
  - reflexivity.
  - cbn [map Spec.strictlyIncreasing] in Hup. apply andb_prop in Hup as [Hlt Hrest].
    cbn [Spec.signedVolumeFrom map fold_left]. rewrite Hlt. apply IH. exact Hrest.
Qed.

(** C4. For every price series, [calculateOBV] is the cumulative signed
    volume seeded at 0 over the bars from the second onward (volume added
    when the close rises against the previous bar, subtracted when it
    falls, unchanged on a tie); and for every series whose closes are
    strictly increasing it equals the sum of the volumes of all bars from
    the second bar onward. *)
Theorem calculateOBV_cumulative_signed_volume (priceData : list PriceData) :
  calculateOBV priceData = Spec.cumulativeSignedVolume priceData /\
  (Spec.strictlyIncreasing (map close priceData) = true ->
   calculateOBV priceData = Spec.volumeFromSecondBar priceData).
Proof.
  assert (Hwalk : calculateOBV priceData = Spec.cumulativeSignedVolume priceData).
  { destruct priceData as [|first rest]; [reflexivity|].
    unfold calculateOBV, Spec.cumulativeSignedVolume.
    replace (length (first :: rest) - 1)%nat with (length rest) by (simpl; lia).
    apply obv_loop_walk. }
  split; [exact Hwalk|].
  intros Hup. rewrite Hwalk.
  destruct priceData as [|first rest]; [reflexivity|].
  apply (signedVolume_rising rest first 0 Hup).
Qed.

Lemma calculateOBV_rising3 :
  Spec.strictlyIncreasing (map close Examples.rising3) = true /\
  calculateOBV Examples.rising3 = 50.
Proof.
  split; [reflexivity|].
  rewrite (proj2 (calculateOBV_cumulative_signed_volume Examples.rising3) eq_refl).
  reflexivity.
Defined.

End OnBalanceVolume.

(** ** Trend direction *)

Section TrendDirection.
Local Open Scope float_scope.
Import Trends.

(** The price [analyzeTrend] reads is the close of the last bar. *)
Lemma currentPrice_lastClose (priceData : list PriceData) :
  close (TechnicalIndicatorsEngine.bar priceData (length priceData - 1)) =
  Spec.lastClose priceData.
Proof.
  unfold Spec.lastClose, TechnicalIndicatorsEngine.bar.
  rewrite nth_length_pred_last.
  set (dflt := mkPriceData "" JS.undefined JS.undefined JS.undefined JS.undefined JS.undefined).
  change (last (map close priceData) JS.undefined)
    with (last (map close priceData) (close dflt)).
  induction priceData as [|x [|y rest] IH]; try reflexivity. exact IH.
Qed.

(** The two strict orderings exclude each other. *)
Lemma orderings_exclusive (a b c d : JS.number) :
  Spec.strictlyAbove a b c d = true -> Spec.strictlyBelow a b c d = false.
Proof.
  unfold Spec.strictlyAbove, Spec.strictlyBelow. intros Hup.
  apply andb_prop in Hup as [Hup _]. apply andb_prop in Hup as [Hup _].
  rewrite (gtb_ltb_false _ _ Hup). reflexivity.
Qed.

(** C1. For every series of at least 50 bars [analyzeTrend] returns: its
    direction is [uptrend] exactly when lastClose > SMA20 > SMA50 > SMA200,
    [downtrend] exactly when lastClose < SMA20 < SMA50 < SMA200, and
    [sideways] in every other case; in the sideways case the reported
    strength is 25. *)
Theorem analyzeTrend_direction
        (technicalIndicators : TechnicalIndicators) (priceData : list PriceData) :
  (50 <= length priceData)%nat ->
  exists result : TrendAnalysis,
    analyzeTrend technicalIndicators priceData = JS.ok result /\
    (direction result = uptrend <->
     Spec.strictlyAbove (Spec.lastClose priceData)
                        (sma20 (sma technicalIndicators))
                        (sma50 (sma technicalIndicators))
                        (sma200 (sma technicalIndicators)) = true) /\
    (direction result = downtrend <->
     Spec.strictlyBelow (Spec.lastClose priceData)
                        (sma20 (sma technicalIndicators))
                        (sma50 (sma technicalIndicators))
                        (sma200 (sma technicalIndicators)) = true) /\
    (direction result = sideways <->
     Spec.strictlyAbove (Spec.lastClose priceData)
                        (sma20 (sma technicalIndicators))
                        (sma50 (sma technicalIndicators))
                        (sma200 (sma technicalIndicators)) = false /\
     Spec.strictlyBelow (Spec.lastClose priceData)
                        (sma20 (sma technicalIndicators))
                        (sma50 (sma technicalIndicators))
                        (sma200 (sma technicalIndicators)) = false) /\
    (direction result = sideways -> strength result = 25).
Proof.
  intros Hlen.
  pose proof (orderings_exclusive (Spec.lastClose priceData)
                (sma20 (sma technicalIndicators)) (sma50 (sma technicalIndicators))
                (sma200 (sma technicalIndicators))) as Hexcl.
  unfold analyzeTrend.
  destruct priceData as [|first rest] eqn:Hseries; [simpl in Hlen; lia|].
  rewrite <- Hseries in *. rewrite currentPrice_lastClose.
  fold (Spec.strictlyAbove (Spec.lastClose priceData)
          (sma20 (sma technicalIndicators)) (sma50 (sma technicalIndicators))
          (sma200 (sma technicalIndicators))).
  fold (Spec.strictlyBelow (Spec.lastClose priceData)
          (sma20 (sma technicalIndicators)) (sma50 (sma technicalIndicators))
          (sma200 (sma technicalIndicators))).
  destruct (Spec.strictlyAbove _ _ _ _) eqn:Hup.
  - rewrite (Hexcl eq_refl).
    eexists. split; [reflexivity|]. cbn [direction strength].
    repeat split; intros; try discriminate; try reflexivity;
      match goal with H : _ /\ _ |- _ => destruct H; discriminate end.
  - destruct (Spec.strictlyBelow _ _ _ _) eqn:Hdown.
    + eexists. split; [reflexivity|]. cbn [direction strength].
      repeat split; intros; try discriminate; try reflexivity;
        match goal with H : _ /\ _ |- _ => destruct H; discriminate end.
    + eexists. split; [reflexivity|]. cbn [direction strength].
      repeat split; intros; try discriminate; reflexivity.
Qed.

Lemma analyzeTrend_direction_flat50 :
  (50 <= length Examples.flat50)%nat /\
  exists result : TrendAnalysis,
    Trends.analyzeTrend (Examples.indicators 50 100 100) Examples.flat50 = JS.ok result /\
    direction result = sideways /\ strength result = 25%float.
Proof.
  split; [vm_compute; lia|].
  destruct (analyzeTrend_direction (Examples.indicators 50 100 100) Examples.flat50)
    as [result [Hrun [_ [_ [Hside H25]]]]]; [vm_compute; lia|].
  exists result. split; [exact Hrun|].
  assert (Hs : direction result = sideways) by (apply Hside; split; reflexivity).
  split; [exact Hs | exact (H25 Hs)].
Defined.

End TrendDirection.

(** ** The 50-bar floor and the moving-average fallbacks *)

Section IndicatorEngine.
Local Open Scope float_scope.
Import TechnicalIndicatorsEngine.
Context {pkg : Lib.Package}.

(** Below 50 bars the engine throws, with the message that names the
    length it received. *)
Lemma calculateTechnicalIndicators_short (priceData : list PriceData) :
  (length priceData < 50)%nat ->
  calculateTechnicalIndicators priceData =
  JS.throw (JS.Error (insufficientMessage (length priceData))).
Proof.
  intros Hlen. unfold calculateTechnicalIndicators.
  apply Nat.ltb_lt in Hlen. rewrite Hlen. reflexivity.
Qed.

(** From 50 bars on the engine returns a bundle whose moving averages are
    those of the moving-average block. *)
Lemma calculateTechnicalIndicators_long (priceData : list PriceData) :
  (50 <= length priceData)%nat ->
  exists bundle : TechnicalIndicators,
    calculateTechnicalIndicators priceData = JS.ok bundle /\
    sma bundle = movingAverages priceData.
Proof.
  intros Hlen. unfold calculateTechnicalIndicators.
  replace (length priceData <? 50)%nat with false
    by (symmetry; apply Nat.ltb_ge; exact Hlen).
  eexists. split; reflexivity.
Qed.

(** C2. [calculateTechnicalIndicators] throws the insufficient-data error
    if and only if the series has fewer than 50 bars; in particular a series
    of exactly 50 bars does not raise and yields an indicator bundle. *)
Theorem calculateTechnicalIndicators_throws_iff_short (priceData : list PriceData) :
  ((exists error : JS.exn, calculateTechnicalIndicators priceData = JS.throw error) <->
   (length priceData < 50)%nat) /\
  (calculateTechnicalIndicators priceData =
   JS.throw (JS.Error (insufficientMessage (length priceData))) <->
   (length priceData < 50)%nat) /\
  (length priceData = 50%nat ->
   exists bundle : TechnicalIndicators, calculateTechnicalIndicators priceData = JS.ok bundle).
Proof.
  assert (Hthrows : forall error, calculateTechnicalIndicators priceData = JS.throw error ->
                                  (length priceData < 50)%nat).
  { intros error Hrun. destruct (Nat.lt_ge_cases (length priceData) 50) as [Hlt|Hge];
      [exact Hlt|].
    destruct (calculateTechnicalIndicators_long priceData Hge) as [bundle [Hok _]].
    rewrite Hok in Hrun. discriminate. }
  split; [|split].
  - split.
    + intros [error Hrun]. exact (Hthrows error Hrun).
    + intros Hlt. eexists. apply calculateTechnicalIndicators_short. exact Hlt.
  - split.
    + apply Hthrows.
    + apply calculateTechnicalIndicators_short.
  - intros H50. destruct (calculateTechnicalIndicators_long priceData) as [bundle [Hok _]];
      [lia|]. exists bundle. exact Hok.
Qed.

(** C3. With fewer than 200 bars the SMA200 of the moving-average block is
    its SMA50; that SMA50 is the package's last SMA(50) value when at least
    50 bars exist and the package returned one, and with fewer than 50 bars
    both fall back to the last close.  Hence every bundle the engine returns
    for a series of fewer than 200 bars, and in particular for one of
    exactly 50 bars, has SMA200 equal to SMA50. *)
Theorem sma200_falls_back_to_sma50 (priceData : list PriceData) :
  ((length priceData < 200)%nat ->
   sma200 (movingAverages priceData) = sma50 (movingAverages priceData)) /\
  ((50 <= length priceData)%nat ->
   Lib.SMA_calculate (map close priceData) 50 <> [] ->
   sma50 (movingAverages priceData) =
   last (Lib.SMA_calculate (map close priceData) 50) JS.undefined) /\
  ((length priceData < 50)%nat ->
   sma50 (movingAverages priceData) = Spec.lastClose priceData /\
   sma200 (movingAverages priceData) = Spec.lastClose priceData) /\
  (forall bundle : TechnicalIndicators,
      calculateTechnicalIndicators priceData = JS.ok bundle ->
      (length priceData < 200)%nat ->
      sma200 (sma bundle) = sma50 (sma bundle)) /\
  (length priceData = 50%nat ->
   exists bundle : TechnicalIndicators,
     calculateTechnicalIndicators priceData = JS.ok bundle /\
     sma200 (sma bundle) = sma50 (sma bundle)).
Proof.
  assert (Hsame : (length priceData < 200)%nat ->
                  sma200 (movingAverages priceData) = sma50 (movingAverages priceData)).
  { intros Hlen. unfold movingAverages.
    replace (200 <=? length priceData)%nat with false
      by (symmetry; apply Nat.leb_gt; exact Hlen).
    reflexivity. }
  assert (Hlast : JS.get (map close priceData) (length (map close priceData) - 1) =
                  Spec.lastClose priceData).
  { unfold JS.get, Spec.lastClose. apply nth_length_pred_last. }
  split; [exact Hsame|]. split; [|split; [|split]].
  - intros Hlen Hsome. unfold movingAverages.
    replace (50 <=? length priceData)%nat with true
      by (symmetry; apply Nat.leb_le; exact Hlen).
    cbn [sma50 present lastValue].
    destruct (Lib.SMA_calculate (map close priceData) 50) as [|v vs] eqn:Hvalues;
      [contradiction|].
    unfold JS.get. apply nth_length_pred_last.
  - intros Hlen.
    assert (Hsma50 : sma50 (movingAverages priceData) = Spec.lastClose priceData).
    { unfold movingAverages.
      replace (50 <=? length priceData)%nat with false
        by (symmetry; apply Nat.leb_gt; exact Hlen).
      cbn [sma50 present]. exact Hlast. }
    split; [exact Hsma50|]. rewrite Hsame by lia. exact Hsma50.
  - intros bundle Hrun Hlen.
    destruct (Nat.lt_ge_cases (length priceData) 50) as [Hlt|Hge].
    + rewrite calculateTechnicalIndicators_short in Hrun by exact Hlt. discriminate.
    + destruct (calculateTechnicalIndicators_long priceData Hge) as [bundle' [Hok Hsma]].
      rewrite Hok in Hrun. injection Hrun as <-. rewrite Hsma. apply Hsame. exact Hlen.
  - intros H50.
    destruct (calculateTechnicalIndicators_long priceData) as [bundle [Hok Hsma]]; [lia|].
    exists bundle. split; [exact Hok|]. rewrite Hsma. apply Hsame. lia.
Qed.

End IndicatorEngine.

Lemma calculateTechnicalIndicators_flat50 :
  length Examples.flat50 = 50%nat /\
  exists bundle : TechnicalIndicators,
    @TechnicalIndicatorsEngine.calculateTechnicalIndicators
      Examples.movingAveragePackage Examples.flat50 = JS.ok bundle.
Proof.
  split; [reflexivity|].
  apply (proj2 (proj2 (@calculateTechnicalIndicators_throws_iff_short
                         Examples.movingAveragePackage Examples.flat50))).
  reflexivity.
Defined.

Lemma sma200_falls_back_flat50 :
  length Examples.flat50 = 50%nat /\
  exists bundle : TechnicalIndicators,
    @TechnicalIndicatorsEngine.calculateTechnicalIndicators
      Examples.movingAveragePackage Examples.flat50 = JS.ok bundle /\
    sma200 (sma bundle) = sma50 (sma bundle).
Proof.
  split; [reflexivity|].
  apply (proj2 (proj2 (proj2 (proj2 (@sma200_falls_back_to_sma50
                                       Examples.movingAveragePackage Examples.flat50))))).
  reflexivity.
Defined.

(** ** Moving-average crossover *)

Section Crossover.
Local Open Scope float_scope.
Import Trends.

(** The prices [analyzeTrend] feeds to the dropped-last EMAs. *)
Lemma previous_closes (priceData : list PriceData) :
  map close (JS.slice 0 (-1) priceData) = removelast (map close priceData).
Proof.
  rewrite slice_drop_last.
  induction priceData as [|x [|y rest] IH]; try reflexivity.
  change (removelast (x :: y :: rest)) with (x :: removelast (y :: rest)).
  cbn [map]. rewrite IH. reflexivity.
Qed.

(** The crossover field is the crossover block, whenever the analysis
    returns. *)
Lemma analyzeTrend_crossover_field (technicalIndicators : TechnicalIndicators)
      (priceData : list PriceData) :
  priceData <> [] ->
  exists result : TrendAnalysis,
    analyzeTrend technicalIndicators priceData = JS.ok result /\
    movingAverageCrossover result = crossover technicalIndicators priceData.
Proof.
  intros Hne. unfold analyzeTrend.
  destruct priceData as [|first rest] eqn:Hseries; [contradiction|].
  rewrite <- Hseries.
  destruct ((_ >? _) && (_ >? _) && (_ >? _));
    [|destruct ((_ <? _) && (_ <? _) && (_ <? _))]; eexists; split; reflexivity.
Qed.

(** C7. For every series of at least 2 bars, [analyzeTrend] reports
    [bullish] exactly when the current EMA12 is above the current EMA26
    while, on the series with its last bar dropped, EMA12 <= EMA26;
    [bearish] for the mirror condition; and [none] otherwise.  In
    particular, when the bundle carries the EMAs of the full series and
    EMA12 crosses from below to above EMA26 exactly at the last bar, it
    reports [bullish]. *)
Theorem analyzeTrend_crossover (technicalIndicators : TechnicalIndicators)
        (priceData : list PriceData) :
  (2 <= length priceData)%nat ->
  exists result : TrendAnalysis,
    analyzeTrend technicalIndicators priceData = JS.ok result /\
    let EMA12 := ema12 (ema technicalIndicators) in
    let EMA26 := ema26 (ema technicalIndicators) in
    let prevEMA12 := calculateEMA (removelast (map close priceData)) 12 in
    let prevEMA26 := calculateEMA (removelast (map close priceData)) 26 in
    (movingAverageCrossover result = bullish <->
     (EMA12 >? EMA26) && (prevEMA12 <=? prevEMA26) = true) /\
    (movingAverageCrossover result = bearish <->
     (EMA12 <? EMA26) && (prevEMA12 >=? prevEMA26) = true) /\
    (movingAverageCrossover result = none <->
     (EMA12 >? EMA26) && (prevEMA12 <=? prevEMA26) = false /\
     (EMA12 <? EMA26) && (prevEMA12 >=? prevEMA26) = false) /\
    (EMA12 = calculateEMA (map close priceData) 12 ->
     EMA26 = calculateEMA (map close priceData) 26 ->
     Spec.crossesAboveAtLastBar (map close priceData) = true ->
     movingAverageCrossover result = bullish).
Proof.
  intros Hlen.
  destruct (analyzeTrend_crossover_field technicalIndicators priceData)
    as [result [Hrun Hfield]].
  { intros ->. simpl in Hlen. lia. }
  exists result. split; [exact Hrun|]. cbv zeta. rewrite Hfield.
  unfold crossover.
  replace (2 <=? length priceData)%nat with true
    by (symmetry; apply Nat.leb_le; exact Hlen).
  rewrite previous_closes.
  set (EMA12 := ema12 (ema technicalIndicators)).
  set (EMA26 := ema26 (ema technicalIndicators)).
  set (prevEMA12 := calculateEMA (removelast (map close priceData)) 12).
  set (prevEMA26 := calculateEMA (removelast (map close priceData)) 26).
  assert (Hexcl : (EMA12 >? EMA26) && (prevEMA12 <=? prevEMA26) = true ->
                  (EMA12 <? EMA26) && (prevEMA12 >=? prevEMA26) = false).
  { intros Hup. apply andb_prop in Hup as [Hup _].
    rewrite (gtb_ltb_false _ _ Hup). reflexivity. }
  assert (Hcross : EMA12 = calculateEMA (map close priceData) 12 ->
                   EMA26 = calculateEMA (map close priceData) 26 ->
                   Spec.crossesAboveAtLastBar (map close priceData) = true ->
                   (EMA12 >? EMA26) && (prevEMA12 <=? prevEMA26) = true).
  { intros -> -> Hspec. unfold Spec.crossesAboveAtLastBar in Hspec.
    fold prevEMA12 prevEMA26 in Hspec. rewrite andb_comm. exact Hspec. }
  destruct ((EMA12 >? EMA26) && (prevEMA12 <=? prevEMA26)) eqn:Hbull.
  - rewrite (Hexcl eq_refl).
    repeat split; intros; try discriminate; try reflexivity;
      match goal with H : _ /\ _ |- _ => destruct H; discriminate end.
  - destruct ((EMA12 <? EMA26) && (prevEMA12 >=? prevEMA26)) eqn:Hbear.
    + repeat split; intros; try discriminate; try reflexivity;
        try (match goal with H : _ /\ _ |- _ => destruct H; discriminate end).
      assert (false = true) by (apply Hcross; assumption). discriminate.
    + repeat split; intros; try discriminate; try reflexivity.
      assert (false = true) by (apply Hcross; assumption). discriminate.
Qed.

(** The twenty-seven-bar series that falls for twenty-six bars and then
    jumps: EMA12 is below EMA26 before the last bar and above it with it. *)
Lemma analyzeTrend_crossover_jump :
  (2 <= length Examples.jumpSeries)%nat /\
  Spec.crossesAboveAtLastBar (map close Examples.jumpSeries) = true /\
  exists result : TrendAnalysis,
    analyzeTrend (Examples.indicators 50
                    (calculateEMA (map close Examples.jumpSeries) 12)
                    (calculateEMA (map close Examples.jumpSeries) 26))
                 Examples.jumpSeries = JS.ok result /\
    movingAverageCrossover result = bullish.
Proof.
  split; [vm_compute; lia|]. split; [vm_compute; reflexivity|].
  destruct (analyzeTrend_crossover
              (Examples.indicators 50
                 (calculateEMA (map close Examples.jumpSeries) 12)
                 (calculateEMA (map close Examples.jumpSeries) 26))
              Examples.jumpSeries) as [result [Hrun [_ [_ [_ Hcross]]]]];
    [vm_compute; lia|].
  exists result. split; [exact Hrun|].
  apply Hcross; vm_compute; reflexivity.
Defined.

End Crossover.

(** ** Volume trend *)

Section VolumeTrendFacts.
Local Open Scope float_scope.
Import Fundamentals.

(** The classification in terms of the percent change. *)
Lemma volumeTrend_cases (priceData : list PriceData)
      (marketCap peRatio priceToBook : option JS.number) :
  let trend := volumeTrend (analyzeFundamentals priceData marketCap peRatio priceToBook) in
  let change := volumeChangePercent priceData in
  (trend = increasing <-> (change >? 10) = true) /\
  (trend = decreasing <-> (change <? -10) = true) /\
  (trend = stable <-> (change >? 10) = false /\ (change <? -10) = false).
Proof.
  cbv zeta. unfold analyzeFundamentals. cbn [volumeTrend].
  pose proof (above_10_not_below_neg_10 (volumeChangePercent priceData)) as Hexcl.
  destruct (volumeChangePercent priceData >? 10) eqn:Hup.
  - rewrite (Hexcl eq_refl).
    repeat split; intros; try discriminate; try reflexivity;
      match goal with H : _ /\ _ |- _ => destruct H; discriminate end.
  - destruct (volumeChangePercent priceData <? -10) eqn:Hdown;
      repeat split; intros; try discriminate; try reflexivity;
        match goal with H : _ /\ _ |- _ => destruct H; discriminate end.
Qed.

(** From 40 bars on, the two slices are the trailing 20 bars and the 20
    bars before them. *)
Lemma windows_of_40 (priceData : list PriceData) :
  (40 <= length priceData)%nat ->
  recentVolumes priceData = map volume (Spec.trailing 20 priceData) /\
  olderVolumes priceData = map volume (Spec.prior 20 priceData) /\
  length (Spec.trailing 20 priceData) = 20%nat /\
  length (Spec.prior 20 priceData) = 20%nat.
Proof.
  intros Hlen. unfold recentVolumes, olderVolumes.
  change (-20)%Z with (- Z.of_nat 20)%Z. change (-40)%Z with (- Z.of_nat (20 + 20))%Z.
  rewrite slice_from_trailing by lia. rewrite slice_prior by (simpl; lia).
  repeat split.
  - unfold Spec.trailing. rewrite length_skipn. lia.
  - unfold Spec.prior. rewrite length_firstn, length_skipn. lia.
Qed.

Lemma averages_of_40 (priceData : list PriceData) :
  (40 <= length priceData)%nat ->
  recentAvgVolume priceData = Spec.average20 (Spec.trailing 20 priceData) /\
  olderAvgVolume priceData = Spec.average20 (Spec.prior 20 priceData).
Proof.
  intros Hlen. destruct (windows_of_40 priceData Hlen) as [Hrecent [Holder [Hn1 Hn2]]].
  unfold recentAvgVolume, olderAvgVolume, Spec.average20.
  rewrite Hrecent, Holder, !length_map, Hn1, Hn2. split; reflexivity.
Qed.

(** C8. For every series of at least 40 bars, [analyzeFundamentals]
    classifies the volume trend from
    [(recentAvgVolume - olderAvgVolume) / olderAvgVolume * 100], the
    trailing 20-bar average volume against the average of the 20 bars
    before: [increasing] above 10, [decreasing] below -10, [stable]
    otherwise; the returned average volume is the recent 20-bar average. *)
Theorem analyzeFundamentals_volume_trend (priceData : list PriceData)
        (marketCap peRatio priceToBook : option JS.number) :
  (40 <= length priceData)%nat ->
  let result := analyzeFundamentals priceData marketCap peRatio priceToBook in
  let change := Spec.volumeChangePct priceData in
  (volumeTrend result = increasing <-> (change >? 10) = true) /\
  (volumeTrend result = decreasing <-> (change <? -10) = true) /\
  (volumeTrend result = stable <-> (change >? 10) = false /\ (change <? -10) = false) /\
  averageVolume result = Spec.average20 (Spec.trailing 20 priceData).
Proof.
  intros Hlen. cbv zeta.
  destruct (averages_of_40 priceData Hlen) as [Hrecent Holder].
  assert (Hchange : volumeChangePercent priceData = Spec.volumeChangePct priceData).
  { unfold volumeChangePercent, Spec.volumeChangePct. rewrite Hrecent, Holder. reflexivity. }
  rewrite <- Hchange.
  destruct (volumeTrend_cases priceData marketCap peRatio priceToBook) as [Hi [Hd Hs]].
  split; [exact Hi|]. split; [exact Hd|]. split; [exact Hs|].
  unfold analyzeFundamentals. cbn [averageVolume]. exact Hrecent.
Qed.

(** Twenty bars at volume 1000 followed by twenty at 2000: the change is
    100 percent, so the trend is [increasing] and the average is 2000. *)
Lemma analyzeFundamentals_doubled40 :
  (40 <= length Examples.doubled40)%nat /\
  volumeTrend (analyzeFundamentals Examples.doubled40 None None None) = increasing /\
  averageVolume (analyzeFundamentals Examples.doubled40 None None None) = 2000.
Proof.
  split; [vm_compute; lia|].
  destruct (analyzeFundamentals_volume_trend Examples.doubled40 None None None)
    as [Hi [_ [_ Havg]]]; [vm_compute; lia|].
  split.
  - apply Hi. vm_compute. reflexivity.
  - rewrite Havg. vm_compute. reflexivity.
Defined.

(** With at most 20 bars nothing lies before the trailing window. *)
Lemma olderVolumes_empty (priceData : list PriceData) :
  (length priceData <= 20)%nat -> olderVolumes priceData = [].
Proof.
  intros Hlen. unfold olderVolumes, JS.slice, JS.rel_index.
  change (-40 <? 0)%Z with true. change (-20 <? 0)%Z with true. cbv iota.
  replace (Z.to_nat (Z.max (Z.of_nat (length priceData) + -20) 0)) with 0%nat by lia.
  replace (Z.to_nat (Z.max (Z.of_nat (length priceData) + -40) 0)) with 0%nat by lia.
  reflexivity.
Qed.

(** C10. For every series of at most 20 bars, [analyzeFundamentals]
    returns (it is a total function: no step of it can throw): the
    prior-window slice is empty, [olderAvgVolume] is the indeterminate
    [0 / 0], that is [NaN], both threshold comparisons are false, and the
    volume trend is [stable]. *)
Theorem analyzeFundamentals_short_series_stable (priceData : list PriceData)
        (marketCap peRatio priceToBook : option JS.number) :
  (length priceData <= 20)%nat ->
  JS.slice (-40) (-20) priceData = [] /\
  olderAvgVolume priceData = 0 / 0 /\
  olderAvgVolume priceData = nan /\
  (volumeChangePercent priceData >? 10) = false /\
  (volumeChangePercent priceData <? -10) = false /\
  volumeTrend (analyzeFundamentals priceData marketCap peRatio priceToBook) = stable.
Proof.
  intros Hlen.
  assert (Hslice : JS.slice (-40) (-20) priceData = []).
  { pose proof (olderVolumes_empty priceData Hlen) as Hempty.
    unfold olderVolumes in Hempty. destruct (JS.slice (-40) (-20) priceData);
      [reflexivity | discriminate]. }
  assert (Holder : olderAvgVolume priceData = nan).
  { unfold olderAvgVolume. rewrite (olderVolumes_empty priceData Hlen). reflexivity. }
  assert (Hchange : volumeChangePercent priceData = nan).
  { unfold volumeChangePercent. rewrite Holder, sub_nan_r. reflexivity. }
  repeat split; try assumption.
  - rewrite Hchange. reflexivity.
  - rewrite Hchange. reflexivity.
  - apply (volumeTrend_cases priceData marketCap peRatio priceToBook).
    rewrite Hchange. split; reflexivity.
Qed.

Lemma analyzeFundamentals_rising3_stable :
  (length Examples.rising3 <= 20)%nat /\
  volumeTrend (analyzeFundamentals Examples.rising3 None None None) = stable.
Proof.
  split; [vm_compute; lia|].
  apply (analyzeFundamentals_short_series_stable Examples.rising3 None None None).
  vm_compute; lia.
Defined.

End VolumeTrendFacts.

(** ** Momentum sub-scores and components at concrete inputs *)

Section MomentumEvaluations.
Local Open Scope float_scope.
Import Momentum.

(** C5. The RSI sub-score leaves [0,100] inside the neutral band: at the
    midpoint RSI = 50 (neither below 30 nor above 70) it evaluates to
    125. *)
Theorem rsiScore_midpoint_is_125 :
  (rsi (Examples.indicators 50 100 100) <? 30) = false /\
  (rsi (Examples.indicators 50 100 100) >? 70) = false /\
  rsiScore (Examples.indicators 50 100 100) = 125 /\
  (rsiScore (Examples.indicators 50 100 100) <=? 100) = false.
Proof. repeat split; vm_compute; reflexivity. Qed.

(** The bar the code reads for [n] "days ago" sits at index
    [max(0, length - n)], that is [n - 1] bars before the last one. *)
Lemma closeBack_index (priceData : list PriceData) (n : nat) :
  closeBack priceData (Z.of_nat n) = JS.get (map close priceData) (length priceData - n).
Proof.
  unfold closeBack, TechnicalIndicatorsEngine.bar, JS.get.
  replace (Z.to_nat (Z.max 0 (Z.of_nat (length priceData) - Z.of_nat n)))
    with (length priceData - n)%nat by lia.
  set (dflt := mkPriceData "" JS.undefined JS.undefined JS.undefined JS.undefined JS.undefined).
  change JS.undefined with (close dflt). symmetry. apply map_nth.
Qed.

(** Both momentum components follow the clamp formula, on the percent
    change against the bar at index [max(0, length - 20)], respectively
    [max(0, length - 50)]. *)
Lemma momentum_components_formula (technicalIndicators : TechnicalIndicators)
      (priceData : list PriceData) :
  let pct (n : nat) :=
    (Spec.lastClose priceData - JS.get (map close priceData) (length priceData - n)) /
    JS.get (map close priceData) (length priceData - n) * 100 in
  shortTermScore priceData = 50 + Spec.clamp (pct 20%nat * 5) (-50) 50 /\
  longTermScore priceData = 50 + Spec.clamp (pct 50%nat * 2) (-50) 50.
Proof.
  cbv zeta. unfold shortTermScore, longTermScore, shortTermMomentum, longTermMomentum,
    price20DaysAgo, price50DaysAgo, currentPrice, Spec.clamp.
  rewrite currentPrice_lastClose.
  change 20%Z with (Z.of_nat 20). change 50%Z with (Z.of_nat 50).
  rewrite !closeBack_index. split; reflexivity.
Qed.

(** The bar the specification calls [n] days prior is the one the code
    reads. *)
Lemma closeDaysPrior_index (priceData : list PriceData) (n : nat) :
  Spec.closeDaysPrior priceData n = JS.get (map close priceData) (length priceData - n).
Proof.
  unfold Spec.closeDaysPrior. destruct (length priceData <? n)%nat eqn:Hshort; [|reflexivity].
  apply Nat.ltb_lt in Hshort. replace (length priceData - n)%nat with 0%nat by lia.
  reflexivity.
Qed.

(** C6. For every series with at least one bar, the short-term component
    of [calculateMomentumScore] equals [50 + clamp(pct * 5, -50, 50)],
    where [pct] is the percent change of the last close against the close
    of the bar 20 days prior (index [length - 20], clamped to 0 for shorter
    series), and the long-term component equals
    [50 + clamp(pct * 2, -50, 50)] against the bar 50 days prior (same
    clamping); the [shortTerm] and [longTerm] fields of the returned record
    are these components passed through the final clamp to [0, 100]. *)
Theorem calculateMomentumScore_components
        (technicalIndicators : TechnicalIndicators) (priceData : list PriceData) :
  (1 <= length priceData)%nat ->
  shortTermScore priceData = Spec.shortTermComponent priceData /\
  longTermScore priceData = Spec.longTermComponent priceData /\
  exists result : MomentumScore,
    calculateMomentumScore technicalIndicators priceData = JS.ok result /\
    shortTerm result = JS.Math_max 0 (JS.Math_min 100 (Spec.shortTermComponent priceData)) /\
    longTerm result = JS.Math_max 0 (JS.Math_min 100 (Spec.longTermComponent priceData)).
Proof.
  intros Hlen.
  destruct (momentum_components_formula technicalIndicators priceData) as [Hshort Hlong].
  assert (Hs : shortTermScore priceData = Spec.shortTermComponent priceData).
  { rewrite Hshort. unfold Spec.shortTermComponent, Spec.percentChange.
    rewrite closeDaysPrior_index. reflexivity. }
  assert (Hl : longTermScore priceData = Spec.longTermComponent priceData).
  { rewrite Hlong. unfold Spec.longTermComponent, Spec.percentChange.
    rewrite closeDaysPrior_index. reflexivity. }
  split; [exact Hs|]. split; [exact Hl|].
  unfold calculateMomentumScore.
  destruct priceData as [|first rest] eqn:Hseries; [simpl in Hlen; lia|].
  rewrite <- Hseries in *. eexists. split; [reflexivity|].
  cbn [shortTerm longTerm]. rewrite Hs, Hl. split; reflexivity.
Qed.

(** Sixty bars that close at 100 and then at 102: both look-back bars
    close at 100, the change is 2 percent, and the components are
    [50 + 10] and [50 + 4]. *)
Lemma calculateMomentumScore_components_uptick60 :
  (1 <= length Examples.uptick60)%nat /\
  Spec.closeDaysPrior Examples.uptick60 20 = 100 /\
  Spec.shortTermComponent Examples.uptick60 = 60 /\
  Spec.longTermComponent Examples.uptick60 = 54 /\
  exists result : MomentumScore,
    calculateMomentumScore (Examples.indicators 50 100 100) Examples.uptick60 = JS.ok result /\
    shortTerm result = 60 /\ longTerm result = 54.
Proof.
  split; [vm_compute; lia|]. split; [vm_compute; reflexivity|].
  split; [vm_compute; reflexivity|]. split; [vm_compute; reflexivity|].
  destruct (calculateMomentumScore_components (Examples.indicators 50 100 100)
              Examples.uptick60) as [_ [_ [result [Hrun [Hshort Hlong]]]]];
    [vm_compute; lia|].
  exists result. split; [exact Hrun|].
  split; [rewrite Hshort | rewrite Hlong]; vm_compute; reflexivity.
Defined.

End MomentumEvaluations.

(** ** The batch loops *)

Section BatchLoops.
Import Routes.

(** Insertion keeps the elements. *)
Lemma sort_insert_permutation {A : Type} (compareFn : A -> A -> float) (x : A)
      (sorted : list A) :
  Permutation (JS.sort_insert compareFn x sorted) (x :: sorted).
Proof.
  induction sorted as [|y rest IH]; [reflexivity|].
  cbn [JS.sort_insert]. destruct (0 <? compareFn x y)%float; [|reflexivity].
  rewrite IH. apply perm_swap.
Qed.

(** Sorting rearranges the array and nothing more. *)
Lemma sort_permutation {A : Type} (compareFn : A -> A -> float) (arr : list A) :
  Permutation (JS.sort compareFn arr) arr.
Proof.
  induction arr as [|x rest IH]; [reflexivity|].
  unfold JS.sort. cbn [fold_right]. fold (JS.sort compareFn rest).
  rewrite sort_insert_permutation. apply perm_skip. exact IH.
Qed.

(** The loop from any state: it appends the assets of the entries that
    succeed and the console lines of those that fail, and goes through the
    whole list. *)
Lemma analyzeAll_from {Entry : Type} (analyze : Entry -> JS.result Asset.t)
      (report : Entry -> JS.exn -> list LogEntry) (entries : list Entry) :
  forall st : LoopState,
    fold_left (tryAnalyze analyze report) entries st =
    mkLoopState
      (assets st ++ Spec.succeeded analyze entries)
      (console st ++ flat_map (fun failure => report (fst failure) (snd failure))
                              (Spec.failed analyze entries)).
Proof.
  induction entries as [|entry rest IH]; intros [done logged].
  - cbn. rewrite !app_nil_r. reflexivity.
  - cbn [fold_left]. rewrite IH. unfold tryAnalyze, Spec.succeeded, Spec.failed, JS.push.
    cbn [flat_map assets console].
    destruct (analyze entry) as [error|asset]; cbn [app flat_map fst snd assets console];
      rewrite <- ?app_assoc; reflexivity.
Qed.

Lemma analyzeAll_assets {Entry : Type} (analyze : Entry -> JS.result Asset.t)
      (report : Entry -> JS.exn -> list LogEntry) (entries : list Entry) :
  assets (analyzeAll analyze report entries) = Spec.succeeded analyze entries.
Proof. unfold analyzeAll. rewrite analyzeAll_from. reflexivity. Qed.

(** C9. In the batch loops a failing analysis is caught: the loop's result
    list holds exactly the assets of the entries whose analysis succeeded,
    in watch-list order, whatever the other entries did, and each failure
    only adds its lines to the console.  Hence both routes answer with the
    successful assets (ranked), never with the route's error response; the
    Indian route answers with its all-failed response only when no entry
    succeeded. *)
Theorem batch_failures_are_isolated :
  (forall (Entry : Type) (analyze : Entry -> JS.result Asset.t)
          (report : Entry -> JS.exn -> list LogEntry) (entries : list Entry),
      let final := analyzeAll analyze report entries in
      assets final = Spec.succeeded analyze entries /\
      console final = flat_map (fun failure => report (fst failure) (snd failure))
                               (Spec.failed analyze entries) /\
      (forall entry asset,
          In entry entries -> analyze entry = JS.ok asset -> In asset (assets final)) /\
      (forall asset,
          In asset (assets final) ->
          exists entry, In entry entries /\ analyze entry = JS.ok asset)) /\
  (forall analyzeCrypto : string -> string -> JS.result Asset.t,
      exists ranked : list Asset.t,
        Crypto.GET analyzeCrypto = AssetsResponse ranked /\
        Permutation ranked
          (Spec.succeeded (fun coin => analyzeCrypto (Crypto.id coin) (Crypto.name coin))
                          (firstn 5 Crypto.CRYPTO_COINS))) /\
  (forall analyzeStock : string -> string -> JS.result Asset.t,
      let done :=
        Spec.succeeded (fun stock => analyzeStock (India.symbol stock) (India.name stock))
                       (firstn 5 India.INDIAN_STOCKS) in
      (done = [] -> exists error message,
            India.GET analyzeStock = AllFailedResponse [] error message 503) /\
      (done <> [] -> exists ranked : list Asset.t,
            India.GET analyzeStock = AssetsResponse ranked /\ Permutation ranked done)).
Proof.
  split; [|split].
  - intros Entry analyze report entries. cbv zeta.
    rewrite analyzeAll_assets. unfold analyzeAll. rewrite analyzeAll_from.
    cbn [assets console app]. repeat split.
    + intros entry asset Hin Hrun. unfold Spec.succeeded. apply in_flat_map.
      exists entry. split; [exact Hin|]. rewrite Hrun. left. reflexivity.
    + intros asset Hin. unfold Spec.succeeded in Hin. apply in_flat_map in Hin.
      destruct Hin as [entry [Hentry Hasset]]. exists entry. split; [exact Hentry|].
      destruct (analyze entry) as [error|asset']; [contradiction|].
      destruct Hasset as [<-|[]]. reflexivity.
  - intros analyzeCrypto. eexists. split; [reflexivity|].
    unfold Crypto.batch. rewrite analyzeAll_assets. apply sort_permutation.
  - intros analyzeStock. cbv zeta.
    unfold India.GET, India.batch. rewrite analyzeAll_assets.
    change (JS.slice 0 5 India.INDIAN_STOCKS) with (firstn 5 India.INDIAN_STOCKS).
    destruct (Spec.succeeded _ (firstn 5 India.INDIAN_STOCKS)) as [|asset rest].
    + split; [|intros Hne; contradiction]. intros _. eexists. eexists. reflexivity.
    + split; [intros Habs; discriminate|]. intros _. eexists. split; [reflexivity|].
      apply sort_permutation.
Qed.

(** With a provider that fails for Ethereum and Solana, the crypto route
    still answers with the three other coins of the batch, best score
    first. *)
Lemma crypto_batch_with_two_failures :
  map Asset.symbol
      (Spec.succeeded (fun coin => Examples.flakyCrypto (Crypto.id coin) (Crypto.name coin))
                      (firstn 5 Crypto.CRYPTO_COINS)) = ["Bitcoin"; "BNB"; "Cardano"]%string /\
  exists ranked : list Asset.t,
    Crypto.GET Examples.flakyCrypto = AssetsResponse ranked /\
    map Asset.symbol ranked = ["BNB"; "Cardano"; "Bitcoin"]%string.
Proof.
  split; [vm_compute; reflexivity|].
  destruct (proj1 (proj2 batch_failures_are_isolated) Examples.flakyCrypto)
    as [ranked [Hget _]].
  exists ranked. split; [exact Hget|].
  assert (Hranked : AssetsResponse ranked = Crypto.GET Examples.flakyCrypto)
    by (symmetry; exact Hget).
  vm_compute in Hranked. injection Hranked as ->. reflexivity.
Defined.

End BatchLoops.


(** * Further properties of the code *)

(** ** The order of binary64 numbers *)

Section NumberOrder.
Local Open Scope float_scope.

(** A comparison is undefined exactly when an operand is [NaN]. *)
Lemma SFcompare_none (x y : spec_float) :
  SFcompare x y = None <-> x = S754_nan \/ y = S754_nan.
Proof.
  split.
  - destruct x as [sx|sx| |sx mx ex], y as [sy|sy| |sy my ey]; simpl; intros H;
      try discriminate; auto;
      try (destruct sx; discriminate); try (destruct sy; discriminate).
  - intros [-> | ->]; [reflexivity|]. destruct x; reflexivity.
Qed.

Lemma SFcompare_refl (x : spec_float) : x <> S754_nan -> SFcompare x x = Some Eq.
Proof.
  destruct x as [sx|sx| |sx mx ex]; intros H; simpl; try (destruct sx; reflexivity);
    [contradiction|].
  destruct sx; rewrite Z.compare_refl;
    change (Pos.compare_cont Eq mx mx) with (Pos.compare mx mx);
    rewrite Pos.compare_refl; reflexivity.
Qed.

Lemma is_nan_spec (x : float) : is_nan x = true <-> Prim2SF x = S754_nan.
Proof.
  unfold is_nan. rewrite eqb_spec. unfold SFeqb. split.
  - intros H. destruct (SFcompare (Prim2SF x) (Prim2SF x)) as [c|] eqn:Hc.
    + destruct (Prim2SF x) eqn:Hx; try reflexivity;
        (rewrite SFcompare_refl in Hc by discriminate); injection Hc as <-; discriminate.
    + apply SFcompare_none in Hc. destruct Hc; assumption.
  - intros ->. reflexivity.
Qed.

Lemma is_nan_false (x : float) : is_nan x = false <-> Prim2SF x <> S754_nan.
Proof.
  rewrite <- is_nan_spec. destruct (is_nan x); split; intros; congruence.
Qed.

Lemma is_nan_eq (x : float) : is_nan x = true -> x = nan.
Proof. intros H. apply Prim2SF_inj. apply is_nan_spec in H. rewrite H. reflexivity. Qed.

Lemma compare_defined (a b : float) :
  is_nan a = false -> is_nan b = false ->
  exists c, SFcompare (Prim2SF a) (Prim2SF b) = Some c.
Proof.
  intros Ha Hb. apply is_nan_false in Ha. apply is_nan_false in Hb.
  destruct (SFcompare (Prim2SF a) (Prim2SF b)) as [c|] eqn:Hc; [eauto|].
  apply SFcompare_none in Hc. tauto.
Qed.

Lemma ltb_leb (a b : float) : (a <? b) = true -> (a <=? b) = true.
Proof.
  rewrite ltb_spec, leb_spec. unfold SFltb, SFleb.
  destruct (SFcompare _ _) as [[]|]; congruence.
Qed.

(** Of two numbers, one is at most the other. *)
Lemma leb_total (a b : float) :
  is_nan a = false -> is_nan b = false -> (a <? b) = false -> (b <=? a) = true.
Proof.
  intros Ha Hb. destruct (compare_defined a b Ha Hb) as [c Hc].
  rewrite ltb_spec, leb_spec. unfold SFltb, SFleb.
  rewrite (SFcompare_antisym (Prim2SF a) (Prim2SF b)), Hc.
  destruct c; simpl; congruence.
Qed.

Lemma leb_not_nan (a b : float) : (a <=? b) = true -> is_nan a = false /\ is_nan b = false.
Proof.
  rewrite leb_spec. unfold SFleb. intros H.
  split; apply is_nan_false; intros Hn; rewrite Hn in H;
    [|destruct (Prim2SF a)]; discriminate.
Qed.

Lemma ltb_not_nan (a b : float) : (a <? b) = true -> is_nan a = false /\ is_nan b = false.
Proof. intros H. apply leb_not_nan. apply ltb_leb. exact H. Qed.

Lemma ltb_irrefl (a : float) : (a <? a) = false.
Proof.
  destruct (a <? a) eqn:H; [|reflexivity]. pose proof (ltb_asym _ _ H). congruence.
Qed.

Lemma leb_refl (a : float) : is_nan a = false -> (a <=? a) = true.
Proof. intros Ha. apply leb_total; auto using ltb_irrefl. Qed.

(** [<=] on numbers is the lexicographic order of the keys. *)
Lemma SFleb_key (x y : spec_float) :
  x <> S754_nan -> y <> S754_nan ->
  (SFleb x y = true <-> FloatOrder.lex_le (FloatOrder.key x) (FloatOrder.key y)).
Proof.
  intros Hx Hy. unfold SFleb.
  destruct x as [sx|sx| |sx mx ex], y as [sy|sy| |sy my ey]; try contradiction;
    try destruct sx; try destruct sy; simpl; try (split; [intros _; lia | reflexivity]);
    try (split; [discriminate | lia]).
  - destruct (Z.compare_spec ex ey);
      change (Pos.compare_cont Eq mx my) with (Pos.compare mx my);
      try destruct (Pos.compare_spec mx my); simpl; split;
        try discriminate; try reflexivity; lia.
  - destruct (Z.compare_spec ex ey);
      change (Pos.compare_cont Eq mx my) with (Pos.compare mx my);
      try destruct (Pos.compare_spec mx my); simpl; split;
        try discriminate; try reflexivity; lia.
Qed.

Lemma leb_trans (a b c : float) :
  (a <=? b) = true -> (b <=? c) = true -> (a <=? c) = true.
Proof.
  intros Hab Hbc.
  destruct (leb_not_nan _ _ Hab) as [Ha Hb]. destruct (leb_not_nan _ _ Hbc) as [_ Hc].
  apply is_nan_false in Ha, Hb, Hc.
  rewrite leb_spec in *.
  apply SFleb_key in Hab; try assumption. apply SFleb_key in Hbc; try assumption.
  apply SFleb_key; try assumption.
  unfold FloatOrder.lex_le in *.
  destruct (FloatOrder.key (Prim2SF a)) as [[a1 a2] a3],
           (FloatOrder.key (Prim2SF b)) as [[b1 b2] b3],
           (FloatOrder.key (Prim2SF c)) as [[c1 c2] c3]. lia.
Qed.

(** [NaN] is contagious in the arithmetic. *)
Lemma add_nan_r (x : float) : x + nan = nan.
Proof.
  apply Prim2SF_inj. rewrite add_spec. change (Prim2SF nan) with S754_nan.
  destruct (Prim2SF x); reflexivity.
Qed.

Lemma add_nan_l (x : float) : nan + x = nan.
Proof.
  apply Prim2SF_inj. rewrite add_spec. change (Prim2SF nan) with S754_nan. reflexivity.
Qed.

Lemma mul_nan_l (x : float) : nan * x = nan.
Proof.
  apply Prim2SF_inj. rewrite mul_spec. change (Prim2SF nan) with S754_nan. reflexivity.
Qed.

(** A finite number minus itself is zero. *)
Lemma sub_diag_finite (x : float) : is_finite x = true -> x - x = 0.
Proof.
  intros Hfin. apply Prim2SF_inj. rewrite sub_spec.
  unfold is_finite in Hfin. apply negb_true_iff, orb_false_iff in Hfin as [Hnan Hinf].
  apply is_nan_false in Hnan.
  unfold is_infinity in Hinf. rewrite eqb_spec, abs_spec in Hinf.
  destruct (Prim2SF x) as [s|s| |s m e]; try contradiction.
  - destruct s; reflexivity.
  - discriminate.
  - unfold SF64sub, SFsub. rewrite Z.sub_diag. reflexivity.
Qed.

End NumberOrder.

(** ** [Math.min], [Math.max] and the percentage clamp *)

Section MinMax.
Local Open Scope float_scope.

(** On numbers [Math.min] returns one of its arguments, below both. *)
Lemma Math_min_spec (a b : float) :
  is_nan a = false -> is_nan b = false ->
  (JS.Math_min a b = a \/ JS.Math_min a b = b) /\
  (JS.Math_min a b <=? a) = true /\ (JS.Math_min a b <=? b) = true.
Proof.
  intros Ha Hb. unfold JS.Math_min. rewrite Ha, Hb. cbn [orb].
  destruct (a <? b) eqn:Hab.
  - auto using leb_refl, ltb_leb.
  - destruct (b <? a) eqn:Hba.
    + auto using leb_refl, ltb_leb.
    + destruct (get_sign a); auto using leb_refl, leb_total.
Qed.

(** On numbers [Math.max] returns one of its arguments, above both. *)
Lemma Math_max_spec (a b : float) :
  is_nan a = false -> is_nan b = false ->
  (JS.Math_max a b = a \/ JS.Math_max a b = b) /\
  (a <=? JS.Math_max a b) = true /\ (b <=? JS.Math_max a b) = true.
Proof.
  intros Ha Hb. unfold JS.Math_max. rewrite Ha, Hb. cbn [orb].
  destruct (a <? b) eqn:Hab.
  - auto using leb_refl, ltb_leb.
  - destruct (b <? a) eqn:Hba.
    + auto using leb_refl, ltb_leb.
    + destruct (get_sign a); auto using leb_refl, leb_total.
Qed.

Lemma Math_min_not_nan (a b : float) :
  is_nan a = false -> is_nan b = false -> is_nan (JS.Math_min a b) = false.
Proof.
  intros Ha Hb. destruct (Math_min_spec a b Ha Hb) as [[-> | ->] _]; assumption.
Qed.

Lemma Math_max_not_nan (a b : float) :
  is_nan a = false -> is_nan b = false -> is_nan (JS.Math_max a b) = false.
Proof.
  intros Ha Hb. destruct (Math_max_spec a b Ha Hb) as [[-> | ->] _]; assumption.
Qed.

(** With a [NaN] argument both return [NaN]. *)
Lemma Math_min_nan (a b : float) :
  is_nan a || is_nan b = true -> JS.Math_min a b = nan.
Proof. intros H. unfold JS.Math_min. rewrite H. reflexivity. Qed.

Lemma Math_max_nan (a b : float) :
  is_nan a || is_nan b = true -> JS.Math_max a b = nan.
Proof. intros H. unfold JS.Math_max. rewrite H. reflexivity. Qed.

(** [Math.max(0, Math.min(100, x))] is [NaN] for [NaN] and a percentage
    for every number, the infinities included. *)
Lemma clamp_percent (x : float) :
  (is_nan x = true -> JS.Math_max 0 (JS.Math_min 100 x) = nan) /\
  (is_nan x = false -> Ranges.percent (JS.Math_max 0 (JS.Math_min 100 x)) = true).
Proof.
  split.
  - intros Hx. rewrite (Math_min_nan 100 x) by (rewrite Hx; apply orb_true_r). reflexivity.
  - intros Hx.
    assert (H100 : is_nan 100 = false) by reflexivity.
    assert (H0 : is_nan 0 = false) by reflexivity.
    destruct (Math_min_spec 100 x H100 Hx) as [_ [Hle _]].
    pose proof (Math_min_not_nan 100 x H100 Hx) as Hm.
    destruct (Math_max_spec 0 (JS.Math_min 100 x) H0 Hm) as [Hor [Hge _]].
    unfold Ranges.percent, Ranges.between. rewrite Hge. cbn [andb].
    destruct Hor as [-> | ->]; [reflexivity | exact Hle].
Qed.

Lemma clamp_percentOrNaN (x : float) :
  Ranges.percentOrNaN (JS.Math_max 0 (JS.Math_min 100 x)) = true.
Proof.
  unfold Ranges.percentOrNaN. destruct (is_nan x) eqn:Hx.
  - rewrite (proj1 (clamp_percent x) Hx). reflexivity.
  - rewrite (proj2 (clamp_percent x) Hx). apply orb_true_r.
Qed.

End MinMax.

(** ** Ranges of the reported scores *)

Section ReportedRanges.
Local Open Scope float_scope.

(** X1. Every number [calculateMomentumScore] reports (score, short-term,
    long-term and the technical and trend entries of the breakdown) is a
    percentage or [NaN], whatever the indicators and prices; the volume
    entry of the breakdown is exactly 25 or 75. *)
Theorem calculateMomentumScore_reports_percentages
        (technicalIndicators : TechnicalIndicators) (priceData : list PriceData)
        (result : MomentumScore) :
  Momentum.calculateMomentumScore technicalIndicators priceData = JS.ok result ->
  Ranges.percentOrNaN (score result) = true /\
  Ranges.percentOrNaN (shortTerm result) = true /\
  Ranges.percentOrNaN (longTerm result) = true /\
  Ranges.percentOrNaN (technical (breakdown result)) = true /\
  Ranges.percentOrNaN (trend (breakdown result)) = true /\
  (volume' (breakdown result) = 25 \/ volume' (breakdown result) = 75).
Proof.
  unfold Momentum.calculateMomentumScore. destruct priceData as [|first rest] eqn:Hseries;
    [discriminate|]. rewrite <- Hseries. intros Hrun. injection Hrun as <-.
  cbn [score shortTerm longTerm breakdown technical trend volume'].
  repeat (split; [apply clamp_percentOrNaN|]).
  unfold Momentum.volumeScore.
  destruct (Momentum.recentVolume priceData >? volumeSMA technicalIndicators);
    [right | left]; reflexivity.
Qed.

Lemma calculateMomentumScore_reports_percentages_dipped60 :
  exists result : MomentumScore,
    Momentum.calculateMomentumScore (Examples.indicators 50 100 100) Examples.dipped60
    = JS.ok result /\
    Ranges.percentOrNaN (score result) = true /\
    volume' (breakdown result) = 25.
Proof.
  eexists. split; [vm_compute; reflexivity|].
  split.
  - apply (calculateMomentumScore_reports_percentages
             (Examples.indicators 50 100 100) Examples.dipped60).
    vm_compute. reflexivity.
  - reflexivity.
Defined.

(** X2. The strength [analyzeTrend] reports is a percentage or [NaN], for
    every bundle and every non-empty series. *)
Theorem analyzeTrend_strength_percentage
        (technicalIndicators : TechnicalIndicators) (priceData : list PriceData)
        (result : TrendAnalysis) :
  Trends.analyzeTrend technicalIndicators priceData = JS.ok result ->
  Ranges.percentOrNaN (strength result) = true.
Proof.
  unfold Trends.analyzeTrend. destruct priceData as [|first rest] eqn:Hseries;
    [discriminate|]. rewrite <- Hseries.
  destruct ((_ >? _) && (_ >? _) && (_ >? _));
    [|destruct ((_ <? _) && (_ <? _) && (_ <? _))];
    intros Hrun; injection Hrun as <-; cbn [strength]; apply clamp_percentOrNaN.
Qed.

Lemma analyzeTrend_strength_percentage_jump :
  exists result : TrendAnalysis,
    Trends.analyzeTrend (Examples.indicators 50 100 100) Examples.jumpSeries = JS.ok result /\
    Ranges.percentOrNaN (strength result) = true.
Proof.
  eexists. split; [vm_compute; reflexivity|].
  apply (analyzeTrend_strength_percentage (Examples.indicators 50 100 100) Examples.jumpSeries).
  vm_compute. reflexivity.
Defined.

(** X3. [calculateFundamentalScore] lies within [15, 85] for every input:
    the base of 50 moves by at most 15 for the volume trend and 10 each for
    the two ratios, so the final clamp to [0, 100] never acts. *)
Theorem calculateFundamentalScore_range (fundamentals : FundamentalData) :
  Ranges.between 15 85 (Fundamentals.calculateFundamentalScore fundamentals) = true.
Proof.
  unfold Fundamentals.calculateFundamentalScore.
  destruct (volumeTrend fundamentals);
    (destruct (peRatio fundamentals) as [pe|];
     [destruct ((pe >? 0) && (pe <? 10)); [|destruct (pe >? 25)]|]);
    (destruct (priceToBook fundamentals) as [pb|];
     [destruct ((pb >? 0) && (pb <? 1)); [|destruct (pb >? 3)]|]);
    vm_compute; reflexivity.
Qed.

End ReportedRanges.

(** ** Support and resistance *)

Section SupportResistanceFacts.
Local Open Scope float_scope.
Import TechnicalIndicatorsEngine.

(** Folding [Math.min] over numbers from a number: the result is below the
    start and below every element, and it is the start or an element. *)
Lemma fold_min_spec (values : list float) :
  forall start : float,
    is_nan start = false ->
    (forall v, In v values -> is_nan v = false) ->
    let least := fold_left JS.Math_min values start in
    is_nan least = false /\
    (least <=? start) = true /\
    (forall v, In v values -> (least <=? v) = true) /\
    (least = start \/ In least values).
Proof.
  induction values as [|x rest IH]; intros start Hstart Hvalues; cbv zeta.
  - cbn [fold_left]. repeat split; auto using leb_refl; try (intros v []).
  - cbn [fold_left].
    assert (Hx : is_nan x = false) by (apply Hvalues; left; reflexivity).
    destruct (Math_min_spec start x Hstart Hx) as [Hor [Hle1 Hle2]].
    destruct (IH (JS.Math_min start x) (Math_min_not_nan start x Hstart Hx))
      as [Hnan [Hle [Hall Hin]]].
    { intros v Hv. apply Hvalues. right. exact Hv. }
    repeat split.
    + exact Hnan.
    + exact (leb_trans _ _ _ Hle Hle1).
    + intros v [<- | Hv]; [exact (leb_trans _ _ _ Hle Hle2) | exact (Hall v Hv)].
    + destruct Hin as [-> | Hin]; [|right; right; exact Hin].
      destruct Hor as [-> | ->]; [left; reflexivity | right; left; reflexivity].
Qed.

Lemma fold_max_spec (values : list float) :
  forall start : float,
    is_nan start = false ->
    (forall v, In v values -> is_nan v = false) ->
    let greatest := fold_left JS.Math_max values start in
    is_nan greatest = false /\
    (start <=? greatest) = true /\
    (forall v, In v values -> (v <=? greatest) = true) /\
    (greatest = start \/ In greatest values).
Proof.
  induction values as [|x rest IH]; intros start Hstart Hvalues; cbv zeta.
  - cbn [fold_left]. repeat split; auto using leb_refl; try (intros v []).
  - cbn [fold_left].
    assert (Hx : is_nan x = false) by (apply Hvalues; left; reflexivity).
    destruct (Math_max_spec start x Hstart Hx) as [Hor [Hle1 Hle2]].
    destruct (IH (JS.Math_max start x) (Math_max_not_nan start x Hstart Hx))
      as [Hnan [Hle [Hall Hin]]].
    { intros v Hv. apply Hvalues. right. exact Hv. }
    repeat split.
    + exact Hnan.
    + exact (leb_trans _ _ _ Hle1 Hle).
    + intros v [<- | Hv]; [exact (leb_trans _ _ _ Hle2 Hle) | exact (Hall v Hv)].
    + destruct Hin as [-> | Hin]; [|right; right; exact Hin].
      destruct Hor as [-> | ->]; [left; reflexivity | right; left; reflexivity].
Qed.

(** Against [Infinity] the minimum is the other number, and against
    [-Infinity] the maximum is. *)
Lemma Math_min_infinity (x : float) : is_nan x = false -> JS.Math_min infinity x = x.
Proof.
  intros Hx. unfold JS.Math_min. rewrite Hx.
  replace (infinity <? x) with false.
  - cbn. match goal with |- (if ?c then _ else _) = _ => destruct c end; reflexivity.
  - symmetry. rewrite ltb_spec. unfold SFltb. change (Prim2SF infinity) with (S754_infinity false).
    destruct (Prim2SF x) as [s|s| |s m e]; try reflexivity; destruct s; reflexivity.
Qed.

Lemma Math_max_neg_infinity (x : float) : is_nan x = false -> JS.Math_max neg_infinity x = x.
Proof.
  intros Hx. unfold JS.Math_max. rewrite Hx.
  replace (x <? neg_infinity) with false.
  - cbn. match goal with |- (if ?c then _ else _) = _ => destruct c end; reflexivity.
  - symmetry. rewrite ltb_spec. unfold SFltb.
    change (Prim2SF neg_infinity) with (S754_infinity true).
    destruct (Prim2SF x) as [s|s| |s m e]; try reflexivity; destruct s; reflexivity.
Qed.

(** The least and the greatest of a non-empty array of numbers are among
    its elements. *)
Lemma Math_min_all_spec (values : list float) :
  (forall v, In v values -> is_nan v = false) ->
  (forall v, In v values -> (JS.Math_min_all values <=? v) = true) /\
  (values <> [] -> In (JS.Math_min_all values) values).
Proof.
  intros Hvalues. unfold JS.Math_min_all.
  destruct (fold_min_spec values infinity eq_refl Hvalues) as [_ [_ [Hall _]]].
  split; [exact Hall|]. intros Hne.
  destruct values as [|x rest]; [contradiction|]. cbn [fold_left].
  assert (Hx : is_nan x = false) by (apply Hvalues; left; reflexivity).
  rewrite Math_min_infinity by exact Hx.
  destruct (fold_min_spec rest x Hx) as [_ [_ [_ [-> | Hin]]]].
  - intros v Hv. apply Hvalues. right. exact Hv.
  - left. reflexivity.
  - right. exact Hin.
Qed.

Lemma Math_max_all_spec (values : list float) :
  (forall v, In v values -> is_nan v = false) ->
  (forall v, In v values -> (v <=? JS.Math_max_all values) = true) /\
  (values <> [] -> In (JS.Math_max_all values) values).
Proof.
  intros Hvalues. unfold JS.Math_max_all.
  destruct (fold_max_spec values neg_infinity eq_refl Hvalues) as [_ [_ [Hall _]]].
  split; [exact Hall|]. intros Hne.
  destruct values as [|x rest]; [contradiction|]. cbn [fold_left].
  assert (Hx : is_nan x = false) by (apply Hvalues; left; reflexivity).
  rewrite Math_max_neg_infinity by exact Hx.
  destruct (fold_max_spec rest x Hx) as [_ [_ [_ [-> | Hin]]]].
  - intros v Hv. apply Hvalues. right. exact Hv.
  - left. reflexivity.
  - right. exact Hin.
Qed.

(** X4. When no low among the trailing 50 bars is [NaN], the support of
    [calculateSupportResistance] is at most the low of every one of those
    bars and, for a non-empty series, is the low of one of them: it is
    their minimum, and bars older than the trailing 50 do not count. *)
Theorem support_is_least_recent_low (priceData : list PriceData) :
  (forall bar, In bar (Spec.trailing 50 priceData) -> is_nan (low bar) = false) ->
  let support := support (calculateSupportResistance priceData) in
  (forall bar, In bar (Spec.trailing 50 priceData) -> (support <=? low bar) = true) /\
  (priceData <> [] ->
   exists bar, In bar (Spec.trailing 50 priceData) /\ support = low bar).
Proof.
  intros Hlows. cbv zeta. unfold calculateSupportResistance. cbn [support].
  change (-50)%Z with (- Z.of_nat 50)%Z. rewrite slice_from_trailing by lia.
  destruct (Math_min_all_spec (map low (Spec.trailing 50 priceData))) as [Hall Hin].
  { intros v Hv. apply in_map_iff in Hv as [bar [<- Hbar]]. apply Hlows. exact Hbar. }
  split.
  - intros bar Hbar. apply Hall. apply in_map. exact Hbar.
  - intros Hne.
    assert (Hwindow : map low (Spec.trailing 50 priceData) <> []).
    { unfold Spec.trailing. intros Habs. apply map_eq_nil in Habs.
      apply (f_equal (@length PriceData)) in Habs. rewrite length_skipn in Habs.
      destruct priceData; [contradiction|]. simpl length in Habs. lia. }
    destruct (proj1 (in_map_iff _ _ _) (Hin Hwindow)) as [bar [Hlow Hbar]].
    exists bar. split; [exact Hbar | symmetry; exact Hlow].
Qed.

(** X5. Likewise the resistance is the maximum of the highs of the trailing
    50 bars when none of them is [NaN]. *)
Theorem resistance_is_greatest_recent_high (priceData : list PriceData) :
  (forall bar, In bar (Spec.trailing 50 priceData) -> is_nan (high bar) = false) ->
  let resistance := resistance (calculateSupportResistance priceData) in
  (forall bar, In bar (Spec.trailing 50 priceData) -> (high bar <=? resistance) = true) /\
  (priceData <> [] ->
   exists bar, In bar (Spec.trailing 50 priceData) /\ resistance = high bar).
Proof.
  intros Hhighs. cbv zeta. unfold calculateSupportResistance. cbn [resistance].
  change (-50)%Z with (- Z.of_nat 50)%Z. rewrite slice_from_trailing by lia.
  destruct (Math_max_all_spec (map high (Spec.trailing 50 priceData))) as [Hall Hin].
  { intros v Hv. apply in_map_iff in Hv as [bar [<- Hbar]]. apply Hhighs. exact Hbar. }
  split.
  - intros bar Hbar. apply Hall. apply in_map. exact Hbar.
  - intros Hne.
    assert (Hwindow : map high (Spec.trailing 50 priceData) <> []).
    { unfold Spec.trailing. intros Habs. apply map_eq_nil in Habs.
      apply (f_equal (@length PriceData)) in Habs. rewrite length_skipn in Habs.
      destruct priceData; [contradiction|]. simpl length in Habs. lia. }
    destruct (proj1 (in_map_iff _ _ _) (Hin Hwindow)) as [bar [Hhigh Hbar]].
    exists bar. split; [exact Hbar | symmetry; exact Hhigh].
Qed.

Lemma support_ranged3 :
  (forall bar, In bar (Spec.trailing 50 MoreExamples.ranged3) -> is_nan (low bar) = false) /\
  support (calculateSupportResistance MoreExamples.ranged3) = 3 /\
  (forall bar, In bar (Spec.trailing 50 MoreExamples.ranged3) -> (3 <=? low bar) = true).
Proof.
  assert (Hlows : forall bar, In bar (Spec.trailing 50 MoreExamples.ranged3) ->
                              is_nan (low bar) = false).
  { intros bar Hbar. vm_compute in Hbar.
    destruct Hbar as [<- | [<- | [<- | []]]]; reflexivity. }
  split; [exact Hlows|]. split; [reflexivity|].
  exact (proj1 (support_is_least_recent_low MoreExamples.ranged3 Hlows)).
Defined.

Lemma resistance_ranged3 :
  (forall bar, In bar (Spec.trailing 50 MoreExamples.ranged3) -> is_nan (high bar) = false) /\
  resistance (calculateSupportResistance MoreExamples.ranged3) = 12 /\
  (forall bar, In bar (Spec.trailing 50 MoreExamples.ranged3) -> (high bar <=? 12) = true).
Proof.
  assert (Hhighs : forall bar, In bar (Spec.trailing 50 MoreExamples.ranged3) ->
                               is_nan (high bar) = false).
  { intros bar Hbar. vm_compute in Hbar.
    destruct Hbar as [<- | [<- | [<- | []]]]; reflexivity. }
  split; [exact Hhighs|]. split; [reflexivity|].
  exact (proj1 (resistance_is_greatest_recent_high MoreExamples.ranged3 Hhighs)).
Defined.

(** One [NaN] makes the whole fold [NaN]. *)
Lemma fold_min_nan (values : list float) :
  forall start : float,
    is_nan start = true \/ (exists v, In v values /\ is_nan v = true) ->
    fold_left JS.Math_min values start = nan.
Proof.
  induction values as [|x rest IH]; intros start Hnan; cbn [fold_left].
  - destruct Hnan as [Hstart | [v [[] _]]]. apply is_nan_eq. exact Hstart.
  - apply IH. destruct Hnan as [Hstart | [v [[<- | Hv] Hnan]]].
    + left. rewrite Math_min_nan by (rewrite Hstart; reflexivity). reflexivity.
    + left. rewrite Math_min_nan by (rewrite Hnan; apply orb_true_r). reflexivity.
    + right. exists v. split; assumption.
Qed.

Lemma fold_max_nan (values : list float) :
  forall start : float,
    is_nan start = true \/ (exists v, In v values /\ is_nan v = true) ->
    fold_left JS.Math_max values start = nan.
Proof.
  induction values as [|x rest IH]; intros start Hnan; cbn [fold_left].
  - destruct Hnan as [Hstart | [v [[] _]]]. apply is_nan_eq. exact Hstart.
  - apply IH. destruct Hnan as [Hstart | [v [[<- | Hv] Hnan]]].
    + left. rewrite Math_max_nan by (rewrite Hstart; reflexivity). reflexivity.
    + left. rewrite Math_max_nan by (rewrite Hnan; apply orb_true_r). reflexivity.
    + right. exists v. split; assumption.
Qed.

(** X6. The degenerate inputs of [calculateSupportResistance]: for the
    empty series it returns support [Infinity] and resistance [-Infinity]
    (so support lies above resistance), and a single [NaN] low, or high,
    among the trailing 50 bars makes the support, or the resistance,
    [NaN]. *)
Theorem support_resistance_degenerate :
  calculateSupportResistance [] = mkSupportResistance infinity neg_infinity /\
  (forall priceData : list PriceData,
      (exists bar, In bar (Spec.trailing 50 priceData) /\ is_nan (low bar) = true) ->
      support (calculateSupportResistance priceData) = nan) /\
  (forall priceData : list PriceData,
      (exists bar, In bar (Spec.trailing 50 priceData) /\ is_nan (high bar) = true) ->
      resistance (calculateSupportResistance priceData) = nan).
Proof.
  split; [reflexivity|]. split; intros priceData [bar [Hbar Hnan]];
    unfold calculateSupportResistance; cbn [support resistance];
    change (-50)%Z with (- Z.of_nat 50)%Z; rewrite slice_from_trailing by lia.
  - apply fold_min_nan. right. exists (low bar). split; [apply in_map; exact Hbar | exact Hnan].
  - apply fold_max_nan. right. exists (high bar). split; [apply in_map; exact Hbar | exact Hnan].
Qed.

Lemma support_nan_low :
  (exists bar, In bar (Spec.trailing 50 [mkPriceData "" 1 2 nan 1 10; mkPriceData "" 1 2 1 1 10])
               /\ is_nan (low bar) = true) /\
  support (calculateSupportResistance
             [mkPriceData "" 1 2 nan 1 10; mkPriceData "" 1 2 1 1 10]) = nan.
Proof.
  assert (H : exists bar,
             In bar (Spec.trailing 50 [mkPriceData "" 1 2 nan 1 10; mkPriceData "" 1 2 1 1 10])
             /\ is_nan (low bar) = true).
  { exists (mkPriceData "" 1 2 nan 1 10). split; [left; reflexivity | reflexivity]. }
  split; [exact H|].
  exact (proj1 (proj2 support_resistance_degenerate) _ H).
Defined.

End SupportResistanceFacts.

(** ** What the engine's bundle guarantees downstream *)

Section BundleConsequences.
Local Open Scope float_scope.
Import TechnicalIndicatorsEngine.
Context {pkg : Lib.Package}.

(** [x || 0] is never [NaN]. *)
Lemma or_else_zero_not_nan (x : float) : is_nan (JS.or_else x 0) = false.
Proof.
  unfold JS.or_else, JS.truthy. destruct (is_nan x) eqn:Hx; cbn [orb negb]; [reflexivity|].
  destruct (is_zero x); cbn [negb]; [reflexivity | exact Hx].
Qed.

Lemma orZero_not_nan (field : option JS.number) : is_nan (orZero field) = false.
Proof. destruct field as [x|]; [apply or_else_zero_not_nan | reflexivity]. Qed.

(** X7. Whatever the package returns, the bundle of
    [calculateTechnicalIndicators] never carries [NaN] in its MACD line,
    signal or histogram (a missing, zero or [NaN] value becomes 0), and its
    ADX is never [NaN] or zero (such a value becomes 25). *)
Theorem bundle_macd_adx_defined (priceData : list PriceData) (bundle : TechnicalIndicators) :
  calculateTechnicalIndicators priceData = JS.ok bundle ->
  is_nan (MACD (macd bundle)) = false /\
  is_nan (signal (macd bundle)) = false /\
  is_nan (histogram (macd bundle)) = false /\
  JS.truthy (adx bundle) = true.
Proof.
  unfold calculateTechnicalIndicators. destruct (length priceData <? 50)%nat; [discriminate|].
  intros Hrun. injection Hrun as <-. cbn [macd MACD signal histogram adx].
  repeat (split; [apply orZero_not_nan|]).
  destruct (Lib.adx _) as [a|]; [|reflexivity].
  destruct (JS.truthy a) eqn:Ha; [exact Ha | reflexivity].
Qed.

(** Under 200 bars the SMA200 of the moving-average block is its SMA50. *)
Lemma movingAverages_short (priceData : list PriceData) :
  (length priceData < 200)%nat ->
  sma200 (movingAverages priceData) = sma50 (movingAverages priceData).
Proof.
  intros Hlen. unfold movingAverages.
  replace (200 <=? length priceData)%nat with false
    by (symmetry; apply Nat.leb_gt; exact Hlen).
  reflexivity.
Qed.

Lemma bundle_short (priceData : list PriceData) (bundle : TechnicalIndicators) :
  calculateTechnicalIndicators priceData = JS.ok bundle ->
  (length priceData < 200)%nat ->
  (50 <= length priceData)%nat /\ sma200 (sma bundle) = sma50 (sma bundle).
Proof.
  intros Hrun Hlen.
  destruct (Nat.lt_ge_cases (length priceData) 50) as [Hlt|Hge].
  - rewrite calculateTechnicalIndicators_short in Hrun by exact Hlt. discriminate.
  - split; [exact Hge|].
    destruct (calculateTechnicalIndicators_long priceData Hge) as [bundle' [Hok Hsma]].
    rewrite Hok in Hrun. injection Hrun as <-. rewrite Hsma.
    apply movingAverages_short. exact Hlen.
Qed.

(** X8. For a series of fewer than 200 bars the engine's bundle can never
    show a trend: SMA200 equals SMA50, neither strict ordering holds, and
    [analyzeTrend] on that bundle reports [sideways] with strength 25,
    whatever the prices. *)
Theorem short_history_is_sideways (priceData : list PriceData) (bundle : TechnicalIndicators) :
  calculateTechnicalIndicators priceData = JS.ok bundle ->
  (length priceData < 200)%nat ->
  exists result : TrendAnalysis,
    Trends.analyzeTrend bundle priceData = JS.ok result /\
    direction result = sideways /\ strength result = 25.
Proof.
  intros Hrun Hlen. destruct (bundle_short priceData bundle Hrun Hlen) as [Hge Hsma].
  unfold Trends.analyzeTrend.
  destruct priceData as [|first rest] eqn:Hseries; [simpl in Hge; lia|].
  rewrite <- Hseries. rewrite Hsma. unfold JS.gtb. rewrite !ltb_irrefl, !andb_false_r.
  eexists. split; [reflexivity|]. split; reflexivity.
Qed.

(** X9. For the same series the moving-average sub-score of the momentum
    is 25, 50 or 100, never 75: a price above SMA50 is above the SMA200
    that stands in for it. *)
Theorem short_history_smaScore (priceData : list PriceData) (bundle : TechnicalIndicators) :
  calculateTechnicalIndicators priceData = JS.ok bundle ->
  (length priceData < 200)%nat ->
  Momentum.smaScore bundle priceData = 25 \/
  Momentum.smaScore bundle priceData = 50 \/
  Momentum.smaScore bundle priceData = 100.
Proof.
  intros Hrun Hlen. destruct (bundle_short priceData bundle Hrun Hlen) as [_ Hsma].
  unfold Momentum.smaScore. rewrite Hsma.
  destruct (_ >? sma20 (sma bundle)); [|left; reflexivity].
  destruct (_ >? sma50 (sma bundle)); [right; right | right; left]; reflexivity.
Qed.

End BundleConsequences.

Section BundleWitnesses.
Local Open Scope float_scope.

Lemma bundle_macd_adx_defined_flat50 :
  exists bundle : TechnicalIndicators,
    @TechnicalIndicatorsEngine.calculateTechnicalIndicators
      Examples.movingAveragePackage Examples.flat50 = JS.ok bundle /\
    is_nan (histogram (macd bundle)) = false /\ adx bundle = 25.
Proof.
  eexists. split; [vm_compute; reflexivity|]. split; [|reflexivity].
  apply (@bundle_macd_adx_defined Examples.movingAveragePackage Examples.flat50).
  vm_compute. reflexivity.
Defined.

Lemma short_history_is_sideways_flat50 :
  (length Examples.flat50 < 200)%nat /\
  exists bundle result,
    @TechnicalIndicatorsEngine.calculateTechnicalIndicators
      Examples.movingAveragePackage Examples.flat50 = JS.ok bundle /\
    Trends.analyzeTrend bundle Examples.flat50 = JS.ok result /\
    direction result = sideways.
Proof.
  split; [vm_compute; lia|].
  eexists. 
  destruct (@short_history_is_sideways Examples.movingAveragePackage Examples.flat50 _
              ltac:(vm_compute; reflexivity) ltac:(vm_compute; lia))
    as [result [Hrun [Hdir _]]].
  exists result. split; [vm_compute; reflexivity|]. split; [exact Hrun | exact Hdir].
Defined.

Lemma short_history_smaScore_flat50 :
  (length Examples.flat50 < 200)%nat /\
  exists bundle,
    @TechnicalIndicatorsEngine.calculateTechnicalIndicators
      Examples.movingAveragePackage Examples.flat50 = JS.ok bundle /\
    Momentum.smaScore bundle Examples.flat50 = 25.
Proof.
  split; [vm_compute; lia|].
  eexists. split; [vm_compute; reflexivity|].
  destruct (@short_history_smaScore Examples.movingAveragePackage Examples.flat50 _
              ltac:(vm_compute; reflexivity) ltac:(vm_compute; lia))
    as [H | [H | H]]; [exact H | vm_compute in H; discriminate | vm_compute in H; discriminate].
Defined.

End BundleWitnesses.

(** ** Collapsed Bollinger bands *)

Section CollapsedBands.
Local Open Scope float_scope.

(** On a non-empty series the momentum scorer returns its record. *)
Lemma calculateMomentumScore_returns
      (technicalIndicators : TechnicalIndicators) (priceData : list PriceData) :
  priceData <> [] ->
  Momentum.calculateMomentumScore technicalIndicators priceData =
  JS.ok (mkMomentumScore
           (JS.Math_max 0 (JS.Math_min 100 (Momentum.overallScore technicalIndicators priceData)))
           (JS.Math_max 0 (JS.Math_min 100 (Momentum.shortTermScore priceData)))
           (JS.Math_max 0 (JS.Math_min 100 (Momentum.longTermScore priceData)))
           (mkBreakdown
              (JS.Math_max 0 (JS.Math_min 100
                                (Momentum.technicalScore technicalIndicators priceData)))
              (JS.Math_max 0 (JS.Math_min 100 (Momentum.adxScore technicalIndicators)))
              (JS.Math_max 0 (JS.Math_min 100
                                (Momentum.volumeScore technicalIndicators priceData))))).
Proof.
  intros Hne. unfold Momentum.calculateMomentumScore.
  destruct priceData; [contradiction | reflexivity].
Qed.

(** X10. When the Bollinger bands have collapsed onto the finite last
    close (upper = lower = last close, as for a flat series or for the
    engine's own fallback), the band position is [0 / 0]: the Bollinger
    sub-score is [NaN], and [calculateMomentumScore] reports [NaN] for the
    overall score and for the technical entry of the breakdown. *)
Theorem collapsed_bands_give_nan_score
        (technicalIndicators : TechnicalIndicators) (priceData : list PriceData) :
  priceData <> [] ->
  is_finite (Spec.lastClose priceData) = true ->
  upper (bollingerBands technicalIndicators) = Spec.lastClose priceData ->
  lower (bollingerBands technicalIndicators) = Spec.lastClose priceData ->
  Momentum.bbScore technicalIndicators priceData = nan /\
  exists result : MomentumScore,
    Momentum.calculateMomentumScore technicalIndicators priceData = JS.ok result /\
    score result = nan /\ technical (breakdown result) = nan.
Proof.
  intros Hne Hfin Hupper Hlower.
  assert (Hposition : Momentum.bbPosition technicalIndicators priceData = nan).
  { unfold Momentum.bbPosition, Momentum.currentPrice.
    rewrite currentPrice_lastClose, Hupper, Hlower, (sub_diag_finite _ Hfin). reflexivity. }
  assert (Hbb : Momentum.bbScore technicalIndicators priceData = nan).
  { unfold Momentum.bbScore. rewrite Hposition. reflexivity. }
  assert (Htechnical : Momentum.technicalScore technicalIndicators priceData = nan).
  { unfold Momentum.technicalScore. rewrite Hbb, mul_nan_l, add_nan_r, !add_nan_l.
    reflexivity. }
  assert (Hoverall : Momentum.overallScore technicalIndicators priceData = nan).
  { unfold Momentum.overallScore. rewrite Htechnical, mul_nan_l, !add_nan_l. reflexivity. }
  split; [exact Hbb|].
  rewrite (calculateMomentumScore_returns _ _ Hne).
  eexists. split; [reflexivity|]. cbn [score breakdown technical].
  rewrite Hoverall, Htechnical. split; reflexivity.
Qed.

(** The engine's bundle for fifty flat bars, when the package returns no
    bands: the fallback puts all three bands on the last close. *)
Lemma collapsed_bands_flat50 :
  exists bundle result,
    @TechnicalIndicatorsEngine.calculateTechnicalIndicators
      Examples.movingAveragePackage Examples.flat50 = JS.ok bundle /\
    upper (bollingerBands bundle) = Spec.lastClose Examples.flat50 /\
    lower (bollingerBands bundle) = Spec.lastClose Examples.flat50 /\
    Momentum.calculateMomentumScore bundle Examples.flat50 = JS.ok result /\
    score result = nan.
Proof.
  eexists.
  destruct (collapsed_bands_give_nan_score
              (mkTechnicalIndicators 50 (mkMACD 0 0 0) (mkSMA 100 100 100) (mkEMA 100 100)
                                     (mkBollinger 100 100 100) (mkStochastic 50 50)
                                     25 0 1000)
      Examples.flat50)
    as [_ [result [Hrun [Hscore _]]]];
    [vm_compute; discriminate | vm_compute; reflexivity | vm_compute; reflexivity
     | vm_compute; reflexivity |].
  exists result. split; [vm_compute; reflexivity|].
  split; [vm_compute; reflexivity|]. split; [vm_compute; reflexivity|].
  split; [exact Hrun | exact Hscore].
Defined.

End CollapsedBands.

(** ** The per-symbol analyses *)

Section AnalyzerFacts.
Local Open Scope float_scope.
Import Analyzers.
Context {pkg : Lib.Package} {scoring : Scoring}.

(** From 50 bars on, the three analyses of the chain all return. *)
Lemma analysis_chain_returns (priceData : list PriceData) :
  (50 <= length priceData)%nat ->
  exists bundle momentum trend,
    TechnicalIndicatorsEngine.calculateTechnicalIndicators priceData = JS.ok bundle /\
    Momentum.calculateMomentumScore bundle priceData = JS.ok momentum /\
    Trends.analyzeTrend bundle priceData = JS.ok trend.
Proof.
  intros Hlen.
  assert (Hne : priceData <> []) by (intros ->; simpl in Hlen; lia).
  destruct (calculateTechnicalIndicators_long priceData Hlen) as [bundle [Hbundle _]].
  destruct (analyzeTrend_crossover_field bundle priceData Hne) as [trend [Htrend _]].
  exists bundle. eexists. exists trend.
  split; [exact Hbundle|]. split; [apply calculateMomentumScore_returns; exact Hne | exact Htrend].
Qed.

(** The second phase changes the three scoring fields only. *)
Lemma fillScores_keeps (asset : Asset.t) :
  Asset.symbol (fillScores asset) = Asset.symbol asset /\
  Asset.type (fillScores asset) = Asset.type asset /\
  Asset.currentPrice (fillScores asset) = Asset.currentPrice asset /\
  Asset.priceChange (fillScores asset) = Asset.priceChange asset /\
  Asset.priceChangePercent (fillScores asset) = Asset.priceChangePercent asset /\
  Asset.priceData (fillScores asset) = Asset.priceData asset.
Proof. repeat split. Qed.

Section IndiaFacts.
Variable fetchIndianStockData : string -> JS.result (list PriceData).
Variable getIndianStockQuote : string -> JS.result Quote.

Let analyze := analyzeStock fetchIndianStockData getIndianStockQuote.

(** The outcome of [analyzeStock] by the length of the provider's series. *)
Lemma analyzeStock_by_length (symbol : string) (name : option string)
      (priceData : list PriceData) :
  fetchIndianStockData symbol = JS.ok priceData ->
  ((length priceData < 30)%nat ->
   analyze symbol name = JS.throw (tooFewBars symbol (length priceData))) /\
  ((30 <= length priceData < 50)%nat ->
   analyze symbol name =
   JS.throw (JS.Error (TechnicalIndicatorsEngine.insufficientMessage (length priceData)))) /\
  ((50 <= length priceData)%nat ->
   exists asset, analyze symbol name = JS.ok asset).
Proof.
  unfold analyze, analyzeStock. intros ->. cbn [JS.bind JS.ok]. repeat split.
  - intros Hlen. apply Nat.ltb_lt in Hlen. rewrite Hlen. reflexivity.
  - intros [H30 H50].
    replace (length priceData <? 30)%nat with false by (symmetry; apply Nat.ltb_ge; exact H30).
    rewrite calculateTechnicalIndicators_short by exact H50. reflexivity.
  - intros H50.
    replace (length priceData <? 30)%nat with false by (symmetry; apply Nat.ltb_ge; lia).
    destruct (analysis_chain_returns priceData H50)
      as [bundle [momentum [trend [Hbundle [Hmomentum Htrend]]]]].
    rewrite Hbundle. cbn [JS.bind JS.ok]. rewrite Hmomentum. cbn [JS.bind JS.ok].
    rewrite Htrend. cbn [JS.bind JS.ok].
    destruct (orNull (getIndianStockQuote symbol)) as [q|];
      [|destruct (1 <? length priceData)%nat]; eexists; reflexivity.
Qed.

(** X11. What [analyzeStock] of the Indian route does with the provider's
    answer: a rejection is passed on; fewer than 30 bars throw the route's
    own error; 30 to 49 bars pass the route's check and then throw the
    engine's insufficient-data error; from 50 bars on an asset is
    returned. *)
Theorem analyzeStock_outcomes (symbol : string) (name : option string) :
  (forall error, fetchIndianStockData symbol = JS.throw error ->
                 analyze symbol name = JS.throw error) /\
  (forall priceData,
      fetchIndianStockData symbol = JS.ok priceData ->
      ((length priceData < 30)%nat ->
       analyze symbol name = JS.throw (tooFewBars symbol (length priceData))) /\
      ((30 <= length priceData < 50)%nat ->
       analyze symbol name =
       JS.throw (JS.Error (TechnicalIndicatorsEngine.insufficientMessage (length priceData)))) /\
      ((50 <= length priceData)%nat ->
       exists asset, analyze symbol name = JS.ok asset)).
Proof.
  split.
  - unfold analyze, analyzeStock. intros error ->. reflexivity.
  - apply analyzeStock_by_length.
Qed.

(** X13. The asset [analyzeStock] returns keeps the trailing 100 bars of
    the provider's series and no more, is typed as an Indian stock, and,
    when the quote service fails, takes its price from the last close and
    its change from the last two closes, with a percent change of 0 when
    the previous close is not positive. *)
Theorem analyzeStock_asset (symbol : string) (name : option string)
        (priceData : list PriceData) (asset : Asset.t) :
  fetchIndianStockData symbol = JS.ok priceData ->
  analyze symbol name = JS.ok asset ->
  Asset.priceData asset = Spec.trailing 100 priceData /\
  (length (Asset.priceData asset) <= 100)%nat /\
  Asset.type asset = indian_stock /\
  (forall error, getIndianStockQuote symbol = JS.throw error ->
     let previousClose := JS.get (map close priceData) (length priceData - 2) in
     Asset.currentPrice asset = Spec.lastClose priceData /\
     Asset.priceChange asset = Spec.lastClose priceData - previousClose /\
     ((previousClose >? 0) = false -> Asset.priceChangePercent asset = 0) /\
     ((previousClose >? 0) = true ->
      Asset.priceChangePercent asset =
      (Spec.lastClose priceData - previousClose) / previousClose * 100)).
Proof.
  intros Hfetch Hrun.
  destruct (Nat.lt_ge_cases (length priceData) 50) as [Hlt|H50].
  { destruct (analyzeStock_by_length symbol name priceData Hfetch) as [H1 [H2 _]].
    destruct (Nat.lt_ge_cases (length priceData) 30) as [H30|H30].
    - rewrite H1 in Hrun by exact H30. discriminate.
    - rewrite H2 in Hrun by lia. discriminate. }
  revert Hrun. unfold analyze, analyzeStock. rewrite Hfetch. cbn [JS.bind JS.ok].
  replace (length priceData <? 30)%nat with false by (symmetry; apply Nat.ltb_ge; lia).
  destruct (analysis_chain_returns priceData H50)
    as [bundle [momentum [trend [Hbundle [Hmomentum Htrend]]]]].
  rewrite Hbundle. cbn [JS.bind JS.ok]. rewrite Hmomentum. cbn [JS.bind JS.ok].
  rewrite Htrend. cbn [JS.bind JS.ok].
  replace (1 <? length priceData)%nat with true by (symmetry; apply Nat.ltb_lt; lia).
  rewrite currentPrice_lastClose.
  assert (Hprev : close (TechnicalIndicatorsEngine.bar priceData (length priceData - 2)) =
                  JS.get (map close priceData) (length priceData - 2)).
  { unfold TechnicalIndicatorsEngine.bar, JS.get.
    set (dflt := mkPriceData "" JS.undefined JS.undefined JS.undefined JS.undefined JS.undefined).
    change JS.undefined with (close dflt). symmetry. apply map_nth. }
  rewrite Hprev.
  assert (Hwindow : JS.slice_from (-100) priceData = Spec.trailing 100 priceData).
  { change (-100)%Z with (- Z.of_nat 100)%Z. apply slice_from_trailing. lia. }
  rewrite Hwindow.
  destruct (getIndianStockQuote symbol) as [error|q] eqn:Hquote; cbn [orNull];
    intros Hrun; injection Hrun as <-;
    (split; [reflexivity|]);
    (split; [cbn [fillScores Asset.priceData Asset.set_recommendation Asset.set_confidence
                    Asset.set_overallScore]; unfold Spec.trailing; rewrite length_skipn; lia|]);
    (split; [reflexivity|]).
  - intros error' _. cbv zeta.
    destruct (JS.get (map close priceData) (length priceData - 2) >? 0) eqn:Hpos;
      repeat split; intros; try discriminate; reflexivity.
  - intros error' Habs. discriminate.
Qed.

(** X14. With the real [analyzeStock], the batch branch of the Indian
    route answers with its all-failed response (status 503) exactly when
    none of the first five watch-list symbols has a provider series of at
    least 50 bars; otherwise it answers with the ranked assets. *)
Theorem india_batch_all_failed_iff :
  let GET := Routes.India.GET (fun symbol name => analyze symbol (Some name)) in
  let usable (stock : Routes.India.Stock) : Prop :=
    exists priceData,
      fetchIndianStockData (Routes.India.symbol stock) = JS.ok priceData /\
      (50 <= length priceData)%nat in
  ((exists error message, GET = Routes.AllFailedResponse [] error message 503) <->
   (forall stock, In stock (firstn 5 Routes.India.INDIAN_STOCKS) -> ~ usable stock)) /\
  ((exists ranked, GET = Routes.AssetsResponse ranked) <->
   (exists stock, In stock (firstn 5 Routes.India.INDIAN_STOCKS) /\ usable stock)).
Proof.
  cbv zeta.
  set (run := fun stock : Routes.India.Stock =>
                analyze (Routes.India.symbol stock) (Some (Routes.India.name stock))).
  assert (Hrun : forall stock,
             (exists asset, run stock = JS.ok asset) <->
             (exists priceData,
                 fetchIndianStockData (Routes.India.symbol stock) = JS.ok priceData /\
                 (50 <= length priceData)%nat)).
  { intros stock. unfold run. split.
    - intros [asset Hasset].
      destruct (fetchIndianStockData (Routes.India.symbol stock)) as [error|priceData] eqn:Hfetch.
      + unfold analyze, analyzeStock in Hasset. rewrite Hfetch in Hasset. discriminate.
      + exists priceData. split; [reflexivity|].
        destruct (analyzeStock_by_length (Routes.India.symbol stock)
                    (Some (Routes.India.name stock)) priceData Hfetch) as [H1 [H2 _]].
        destruct (Nat.lt_ge_cases (length priceData) 50) as [Hlt|Hge]; [|exact Hge].
        destruct (Nat.lt_ge_cases (length priceData) 30) as [H30|H30].
        * rewrite H1 in Hasset by exact H30. discriminate.
        * rewrite H2 in Hasset by lia. discriminate.
    - intros [priceData [Hfetch Hlen]].
      apply (analyzeStock_by_length _ _ priceData Hfetch). exact Hlen. }
  assert (Hdone : forall stocks,
             Spec.succeeded run stocks = [] <->
             (forall stock, In stock stocks -> ~ exists asset, run stock = JS.ok asset)).
  { induction stocks as [|stock rest IH]; cbn [Spec.succeeded flat_map].
    - split; [intros _ stock [] | reflexivity].
    - fold (Spec.succeeded run rest). destruct (run stock) as [error|asset] eqn:Hstock.
      + cbn [app]. rewrite IH. split.
        * intros Hrest other [<- | Hin]; [|exact (Hrest other Hin)].
          intros [asset Habs]. rewrite Hstock in Habs. discriminate.
        * intros Hall other Hin. apply Hall. right. exact Hin.
      + cbn [app]. split; [discriminate|]. intros Hall. exfalso.
        apply (Hall stock); [left; reflexivity|]. exists asset. exact Hstock. }
  unfold Routes.India.GET, Routes.India.batch. rewrite analyzeAll_assets.
  change (JS.slice 0 5 Routes.India.INDIAN_STOCKS) with (firstn 5 Routes.India.INDIAN_STOCKS).
  fold run.
  destruct (Spec.succeeded run (firstn 5 Routes.India.INDIAN_STOCKS)) as [|asset rest] eqn:Hs.
  - pose proof (proj1 (Hdone _) Hs) as Hnone. split.
    + split; [|intros _; eexists; eexists; reflexivity].
      intros _ stock Hin Husable. apply (Hnone stock Hin). apply Hrun. exact Husable.
    + split; [intros [ranked Habs]; discriminate|].
      intros [stock [Hin Husable]]. exfalso. apply (Hnone stock Hin). apply Hrun.
      exact Husable.
  - assert (Hsome : exists stock, In stock (firstn 5 Routes.India.INDIAN_STOCKS) /\
                                  exists a, run stock = JS.ok a).
    { assert (Hin : In asset (Spec.succeeded run (firstn 5 Routes.India.INDIAN_STOCKS)))
        by (rewrite Hs; left; reflexivity).
      unfold Spec.succeeded in Hin. apply in_flat_map in Hin as [stock [Hstock Hasset]].
      exists stock. split; [exact Hstock|].
      destruct (run stock) as [error|a]; [contradiction | exists a; reflexivity]. }
    destruct Hsome as [stock [Hin Hok]]. split.
    + split; [intros [error [message Habs]]; discriminate|].
      intros Hall. exfalso. apply (Hall stock Hin). apply Hrun. exact Hok.
    + split; [|intros _; eexists; reflexivity].
      intros _. exists stock. split; [exact Hin | apply Hrun; exact Hok].
Qed.

End IndiaFacts.

Section CryptoFacts.
Variable fetchCryptoData : string -> nat -> JS.result (list PriceData).
Variable getCryptoQuote : string -> JS.result Quote.
Variable toUpperCase : string -> string.

(** X12. [analyzeCrypto] returns an asset exactly when the provider
    resolves with at least 50 bars; with fewer it throws the route's own
    error, so the engine's insufficient-data error never surfaces from
    it. *)
Theorem analyzeCrypto_returns_iff (coinId : string) (name : option string) :
  let run := analyzeCrypto fetchCryptoData getCryptoQuote toUpperCase coinId name in
  ((exists asset, run = JS.ok asset) <->
   (exists priceData,
       fetchCryptoData coinId 365 = JS.ok priceData /\ (50 <= length priceData)%nat)) /\
  (forall priceData,
      fetchCryptoData coinId 365 = JS.ok priceData ->
      (length priceData < 50)%nat ->
      run = JS.throw (tooFewPoints coinId (length priceData))) /\
  (forall error,
      fetchCryptoData coinId 365 = JS.throw error -> run = JS.throw error).
Proof.
  cbv zeta. unfold analyzeCrypto.
  destruct (fetchCryptoData coinId 365) as [error|priceData] eqn:Hfetch; cbn [JS.bind].
  - split; [|split].
    + split; [intros [asset Habs]; discriminate | intros [pd [Habs _]]; discriminate].
    + intros pd Habs. discriminate.
    + intros error' Heq. injection Heq as <-. reflexivity.
  - destruct (Nat.lt_ge_cases (length priceData) 50) as [Hlt|H50].
    + replace (length priceData <? 50)%nat with true by (symmetry; apply Nat.ltb_lt; exact Hlt).
      split; [|split].
      * split; [intros [asset Habs]; discriminate|].
        intros [pd [Heq Hlen]]. injection Heq as ->. lia.
      * intros pd Heq _. injection Heq as <-. reflexivity.
      * intros error Habs. discriminate.
    + replace (length priceData <? 50)%nat with false by (symmetry; apply Nat.ltb_ge; exact H50).
      destruct (analysis_chain_returns priceData H50)
        as [bundle [momentum [trend [Hbundle [Hmomentum Htrend]]]]].
      rewrite Hbundle. cbn [JS.bind JS.ok]. rewrite Hmomentum. cbn [JS.bind JS.ok].
      rewrite Htrend. cbn [JS.bind JS.ok].
      split; [|split].
      * split; [intros _; exists priceData; split; [reflexivity | exact H50]|].
        intros _. eexists. reflexivity.
      * intros pd Heq Hlen. injection Heq as <-. lia.
      * intros error Habs. discriminate.
Qed.

End CryptoFacts.

End AnalyzerFacts.

Section AnalyzerWitnesses.
Local Open Scope string_scope.

(** Forty bars pass the Indian route's 30-bar check and fail in the
    engine. *)
Lemma analyzeStock_outcomes_tcs :
  MoreExamples.provider "TCS" = JS.ok (MoreExamples.flatBars 40) /\
  @Analyzers.analyzeStock Examples.movingAveragePackage MoreExamples.flatScoring
     MoreExamples.provider MoreExamples.noQuote "TCS" None =
  JS.throw (JS.Error "Insufficient data points. Need at least 50 days of data, got 40.").
Proof.
  split; [reflexivity|].
  destruct (@analyzeStock_outcomes Examples.movingAveragePackage MoreExamples.flatScoring
              MoreExamples.provider MoreExamples.noQuote "TCS" None) as [_ Hok].
  destruct (Hok (MoreExamples.flatBars 40) eq_refl) as [_ [Hmid _]].
  rewrite Hmid by (vm_compute; lia). reflexivity.
Defined.

Lemma analyzeStock_asset_reliance :
  exists asset,
    @Analyzers.analyzeStock Examples.movingAveragePackage MoreExamples.flatScoring
       MoreExamples.provider MoreExamples.noQuote "RELIANCE" None = JS.ok asset /\
    length (Asset.priceData asset) = 60%nat /\
    Asset.currentPrice asset = 100%float /\ Asset.priceChange asset = 0%float.
Proof.
  assert (Hrun : exists asset,
             @Analyzers.analyzeStock Examples.movingAveragePackage MoreExamples.flatScoring
                MoreExamples.provider MoreExamples.noQuote "RELIANCE" None = JS.ok asset)
    by (eexists; vm_compute; reflexivity).
  destruct Hrun as [asset Hrun]. exists asset. split; [exact Hrun|].
  destruct (@analyzeStock_asset Examples.movingAveragePackage MoreExamples.flatScoring
              MoreExamples.provider MoreExamples.noQuote "RELIANCE" None
              (MoreExamples.flatBars 60) asset eq_refl Hrun)
    as [Hdata [_ [_ Hquote]]].
  split; [rewrite Hdata; vm_compute; reflexivity|].
  destruct (Hquote (JS.Error "Quote request timeout") eq_refl) as [Hprice [Hchange _]].
  split; [rewrite Hprice | rewrite Hchange]; vm_compute; reflexivity.
Defined.

Lemma india_batch_reliance_usable :
  exists ranked,
    Routes.India.GET
      (fun symbol name =>
         @Analyzers.analyzeStock Examples.movingAveragePackage MoreExamples.flatScoring
            MoreExamples.provider MoreExamples.noQuote symbol (Some name))
    = Routes.AssetsResponse ranked.
Proof.
  apply (proj2 (@india_batch_all_failed_iff Examples.movingAveragePackage
                  MoreExamples.flatScoring MoreExamples.provider MoreExamples.noQuote)).
  exists (Routes.India.mkStock "RELIANCE" "Reliance Industries Ltd").
  split; [left; reflexivity|].
  exists (MoreExamples.flatBars 60). split; [reflexivity | vm_compute; lia].
Defined.

Lemma analyzeCrypto_short_ethereum :
  MoreExamples.cryptoProvider "ethereum" 365 = JS.ok (MoreExamples.flatBars 30) /\
  @Analyzers.analyzeCrypto Examples.movingAveragePackage MoreExamples.flatScoring
     MoreExamples.cryptoProvider MoreExamples.noQuote (fun s => s) "ethereum" None =
  JS.throw (JS.Error "Insufficient data for ethereum: got 30 points, need at least 50").
Proof.
  split; [reflexivity|].
  rewrite (proj1 (proj2 (@analyzeCrypto_returns_iff Examples.movingAveragePackage
                           MoreExamples.flatScoring MoreExamples.cryptoProvider
                           MoreExamples.noQuote (fun s => s) "ethereum" None))
             (MoreExamples.flatBars 30) eq_refl)
    by (vm_compute; lia).
  reflexivity.
Defined.

End AnalyzerWitnesses.

(** ** The recommendations route *)

Section RecommendationFacts.
Import Recommendations.
Variable fetch : string -> JS.result FetchResponse.
Variable createRecommendation : Asset.t -> JS.result Recommendation.

(** [createAll] returns one recommendation per asset, or fails on an asset
    for which [createRecommendation] throws. *)
Lemma createAll_length (top : list Asset.t) :
  forall recommendations,
    createAll createRecommendation top = JS.ok recommendations ->
    length recommendations = length top.
Proof.
  induction top as [|a rest IH]; intros recommendations; cbn [createAll].
  - intros Hrun. injection Hrun as <-. reflexivity.
  - destruct (createRecommendation a) as [error|r]; cbn [JS.bind]; [discriminate|].
    destruct (createAll createRecommendation rest) as [error|rs]; cbn [JS.bind];
      [discriminate|].
    intros Hrun. injection Hrun as <-. cbn [length]. rewrite (IH rs eq_refl). reflexivity.
Qed.

Lemma createAll_throws (top : list Asset.t) :
  forall error,
    createAll createRecommendation top = JS.throw error ->
    exists a, In a top /\ createRecommendation a = JS.throw error.
Proof.
  induction top as [|a rest IH]; intros error; cbn [createAll]; [discriminate|].
  destruct (createRecommendation a) as [error'|r] eqn:Ha; cbn [JS.bind].
  - intros Hrun. injection Hrun as ->. exists a. split; [left; reflexivity | exact Ha].
  - destruct (createAll createRecommendation rest) as [error'|rs]; cbn [JS.bind];
      [|discriminate].
    intros Hrun. injection Hrun as ->.
    destruct (IH error eq_refl) as [b [Hin Hb]]. exists b. split; [right; exact Hin | exact Hb].
Qed.

(** [arr.slice(0, 20)] keeps the first twenty elements. *)
Lemma slice_top20 {A : Type} (arr : list A) : JS.slice 0 20 arr = firstn 20 arr.
Proof.
  unfold JS.slice, JS.rel_index. cbn [Z.ltb Z.compare Z.to_nat Pos.to_nat Pos.iter_op].
  rewrite Nat.min_0_l, Nat.sub_0_r. cbn [skipn].
  change (Pos.to_nat 20) with 20.
  destruct (Nat.le_ge_cases 20 (length arr)) as [H|H].
  - rewrite Nat.min_l by exact H. reflexivity.
  - rewrite Nat.min_r by exact H. rewrite !firstn_all2 by lia. reflexivity.
Qed.

(** X15. When the recommendations route answers with a ranking, the
    counts it reports are consistent: [total] is the number of
    recommendations, which is the smaller of 20 and [filtered], and
    [filtered] is at most [totalAnalyzed]. *)
Theorem recommendations_counts (assetType : option string)
        (recommendations : list Recommendation) (total filtered totalAnalyzed : nat) :
  GET fetch createRecommendation assetType =
  Ranked recommendations total filtered totalAnalyzed ->
  total = length recommendations /\
  total = Nat.min 20 filtered /\
  filtered <= totalAnalyzed /\
  totalAnalyzed = length (gather fetch assetType).
Proof.
  unfold GET. rewrite slice_top20.
  destruct (createAll createRecommendation _) as [error|recs] eqn:Hall; [discriminate|].
  intros Hrun. injection Hrun as <- <- <- <-.
  rewrite (createAll_length _ _ Hall), length_firstn.
  rewrite (Permutation_length (sort_permutation _ _)).
  repeat split. apply filter_length_le.
Qed.

(** X16. The route answers with its error response (status 500) only when
    [createRecommendation] throws for an asset that was gathered and has a
    confidence of at least 0: no failure of an asset route, whether a
    rejection, a failure status or an unreadable body, makes it fail. *)
Theorem recommendations_failure_cause (assetType : option string)
        (error : string) (status : nat) :
  GET fetch createRecommendation assetType = Failed error status ->
  status = 500 /\
  exists a thrown,
    In a (gather fetch assetType) /\
    (Asset.confidence a >=? 0)%float = true /\
    createRecommendation a = JS.throw thrown.
Proof.
  unfold GET. rewrite slice_top20.
  destruct (createAll createRecommendation _) as [thrown|recs] eqn:Hall; [|discriminate].
  intros Hrun. injection Hrun as <- <-. split; [reflexivity|].
  destruct (createAll_throws _ _ Hall) as [a [Hin Ha]].
  exists a, thrown.
  assert (Hsorted : In a (JS.sort Routes.byScoreDescending
                            (filter (fun a => (Asset.confidence a >=? 0)%float)
                                    (gather fetch assetType)))).
  { rewrite <- (firstn_skipn 20). apply in_or_app. left. exact Hin. }
  apply (Permutation_in _ (sort_permutation _ _)) in Hsorted. rename Hsorted into Hin'.
  clear Hin. rename Hin' into Hin.
  apply filter_In in Hin as [Hin Hconfidence].
  repeat split; assumption.
Qed.

(** X17. A [type] parameter that names none of the three asset classes
    selects no route: the answer is the empty ranking with all counts 0,
    not an error. *)
Theorem recommendations_unknown_type (given : string) :
  given <> ""%string -> given <> "us_stock"%string ->
  given <> "indian_stock"%string -> given <> "crypto"%string ->
  GET fetch createRecommendation (Some given) = Ranked [] 0 0 0.
Proof.
  intros Hempty Hus Hindia Hcrypto.
  assert (Hselects : forall wanted, given <> wanted -> selects (Some given) wanted = false).
  { intros wanted Hne. unfold selects. destruct given; [contradiction|].
    apply String.eqb_neq. exact Hne. }
  unfold GET, gather. rewrite !Hselects by assumption. reflexivity.
Qed.

End RecommendationFacts.

Section RecommendationWitnesses.
Local Open Scope string_scope.

Lemma recommendations_counts_one_route :
  exists recommendations,
    Recommendations.GET MoreExamples.oneRoute MoreExamples.plainRecommendation None =
    Recommendations.Ranked recommendations 20 24 25 /\
    length recommendations = 20.
Proof.
  assert (Hrun : exists recommendations,
             Recommendations.GET MoreExamples.oneRoute MoreExamples.plainRecommendation None =
             Recommendations.Ranked recommendations 20 24 25)
    by (eexists; vm_compute; reflexivity).
  destruct Hrun as [recommendations Hrun]. exists recommendations. split; [exact Hrun|].
  symmetry.
  exact (proj1 (recommendations_counts MoreExamples.oneRoute MoreExamples.plainRecommendation
                  None recommendations 20 24 25 Hrun)).
Defined.

Lemma recommendations_failure_cause_example :
  Recommendations.GET MoreExamples.oneRoute (fun _ => JS.throw (JS.Error "no reasoning")) None
  = Recommendations.Failed "Failed to generate recommendations" 500 /\
  exists a thrown,
    In a (Recommendations.gather MoreExamples.oneRoute None) /\
    (fun _ : Asset.t => @JS.throw Recommendations.Recommendation (JS.Error "no reasoning")) a
    = JS.throw thrown.
Proof.
  split; [vm_compute; reflexivity|].
  destruct (recommendations_failure_cause MoreExamples.oneRoute
              (fun _ => JS.throw (JS.Error "no reasoning")) None
              "Failed to generate recommendations" 500)
    as [_ [a [thrown [Hin [_ Hthrown]]]]]; [vm_compute; reflexivity|].
  exists a, thrown. split; [exact Hin | exact Hthrown].
Defined.

Lemma recommendations_unknown_type_bond :
  Recommendations.GET MoreExamples.oneRoute MoreExamples.plainRecommendation (Some "bond")
  = Recommendations.Ranked [] 0 0 0.
Proof.
  apply recommendations_unknown_type; discriminate.
Defined.

End RecommendationWitnesses.

(** ** The conversion of a Yahoo chart *)

Section YahooFacts.
Local Open Scope float_scope.
Import YahooFinance.
Variable isoDay : JS.number -> string.

Lemma valueOrZero_not_nan (values : list (option JS.number)) (index : nat) :
  is_nan (valueOrZero values index) = false.
Proof.
  unfold valueOrZero. destruct (nth_error values index) as [[v|]|];
    [apply or_else_zero_not_nan | reflexivity | reflexivity].
Qed.

(** X18. Every bar the conversion keeps has a close above 0 and no [NaN]
    in any field, whatever the chart holds (missing, [null], zero and
    [NaN] entries become 0, and bars whose close is then not positive are
    dropped); it keeps at most one bar per timestamp. *)
Theorem toPriceData_bars_are_clean
        (timestamps : list JS.number)
        (opens highs lows closes volumes : list (option JS.number)) :
  let bars := toPriceData isoDay timestamps opens highs lows closes volumes in
  (length bars <= length timestamps)%nat /\
  forall bar, In bar bars ->
    (close bar >? 0) = true /\
    is_nan (open bar) = false /\ is_nan (high bar) = false /\
    is_nan (low bar) = false /\ is_nan (close bar) = false /\
    is_nan (volume bar) = false.
Proof.
  cbv zeta. unfold toPriceData. split.
  - eapply Nat.le_trans; [apply filter_length_le|].
    rewrite length_map, length_combine, length_seq. lia.
  - intros bar Hbar. apply filter_In in Hbar as [Hbar Hclose].
    apply in_map_iff in Hbar as [[index timestamp] [<- _]].
    cbn [open high low close volume] in *.
    repeat split; try apply valueOrZero_not_nan. exact Hclose.
Qed.

End YahooFacts.

Section YahooWitness.
Local Open Scope float_scope.
Import YahooFinance.

Lemma toPriceData_chart_example :
  map close (toPriceData (fun _ => ""%string) MoreExamples.chartDays MoreExamples.chartOpens
                         [] [] MoreExamples.chartCloses []) = [10; 12] /\
  map open (toPriceData (fun _ => ""%string) MoreExamples.chartDays MoreExamples.chartOpens
                        [] [] MoreExamples.chartCloses []) = [9; 0] /\
  (length (toPriceData (fun _ => ""%string) MoreExamples.chartDays MoreExamples.chartOpens
                       [] [] MoreExamples.chartCloses []) <= 3)%nat.
Proof.
  split; [reflexivity|]. split; [reflexivity|].
  exact (proj1 (toPriceData_bars_are_clean (fun _ => ""%string) MoreExamples.chartDays
                  MoreExamples.chartOpens [] [] MoreExamples.chartCloses [])).
Defined.

End YahooWitness.

(** ** Reversal signal *)

Section ReversalFacts.
Local Open Scope float_scope.

Lemma leb_not_gtb (a b : float) : (a <=? b) = true -> (a >? b) = false.
Proof.
  unfold JS.gtb. rewrite leb_spec, ltb_spec. unfold SFleb, SFltb.
  rewrite (SFcompare_antisym (Prim2SF a) (Prim2SF b)).
  destruct (SFcompare (Prim2SF a) (Prim2SF b)) as [[]|]; simpl; congruence.
Qed.

Lemma leb_not_ltb (a b : float) : (a <=? b) = true -> (b <? a) = false.
Proof. apply leb_not_gtb. Qed.

(** X19. [analyzeTrend] never signals a reversal while the RSI lies within
    [30, 70], whatever the prices and the MACD histogram. *)
Theorem no_reversal_in_neutral_band
        (technicalIndicators : TechnicalIndicators) (priceData : list PriceData)
        (result : TrendAnalysis) :
  Trends.analyzeTrend technicalIndicators priceData = JS.ok result ->
  Ranges.between 30 70 (rsi technicalIndicators) = true ->
  reversalSignal result = false.
Proof.
  intros Hrun Hband. unfold Ranges.between in Hband. apply andb_prop in Hband as [H30 H70].
  assert (Hreversal : Trends.detectReversal priceData technicalIndicators = false).
  { unfold Trends.detectReversal.
    rewrite (leb_not_gtb _ _ H70), (leb_not_ltb _ _ H30).
    destruct (_ >? _); reflexivity. }
  revert Hrun. unfold Trends.analyzeTrend. destruct priceData as [|first rest] eqn:Hseries;
    [discriminate|]. rewrite <- Hseries in *.
  destruct ((_ >? _) && (_ >? _) && (_ >? _));
    [|destruct ((_ <? _) && (_ <? _) && (_ <? _))];
    intros Hrun; injection Hrun as <-; cbn [reversalSignal]; exact Hreversal.
Qed.

Lemma no_reversal_flat50 :
  exists result,
    Trends.analyzeTrend (Examples.indicators 50 100 100) Examples.flat50 = JS.ok result /\
    Ranges.between 30 70 (rsi (Examples.indicators 50 100 100)) = true /\
    reversalSignal result = false.
Proof.
  eexists. split; [vm_compute; reflexivity|]. split; [vm_compute; reflexivity|].
  apply (no_reversal_in_neutral_band (Examples.indicators 50 100 100) Examples.flat50);
    vm_compute; reflexivity.
Defined.

End ReversalFacts.
